(** * Daily Trivia: the server's date, streak and leaderboard logic

    A shallow embedding of [server/index.ts]: the question selector and
    question number ([getTodaysQuestion], [getQuestionNumber]), the user
    store ([loadUsers], [saveUsers], [getUser], [updateUser]), the ranking
    ([getLeaderboard]) and the API handlers that use them.

    Conventions.
    - JavaScript numbers are modelled as [Z]: every number the server
      computes with is an integer far below 2^53, where floating point
      arithmetic is exact.  [NaN] is [None] where the code can meet it.
    - Request bodies are typed as the API declares them
      ([fid: number], [username?: string], [answerIndex: number]); an absent
      field ([undefined]) is [None].
    - The users file is the state.  Every function that reads or writes it
      lives in the state monad [M] over [Disk].
    - [new Date()] is a parameter: the host time zone and the time value
      (milliseconds since the epoch) read from the clock. *)

From Stdlib Require Import ZArith Bool List String Ascii Lia.
From Stdlib Require Import DecimalString DecimalPos Sorting.Sorted Sorting.Permutation.
Import ListNotations.

Local Open Scope string_scope.
Local Open Scope Z_scope.

(* ================================================================= *)
(** ** JavaScript: the parts of the language the server relies on *)

Module JS.

(** *** Time values (ECMA-262, "Time Values and Time Range") *)

Definition msPerDay : Z := 86400000.
Definition msPerHour : Z := 3600000.
Definition msPerMinute : Z := 60000.
Definition msPerSecond : Z := 1000.

Definition Day (t : Z) : Z := t / msPerDay.
Definition TimeWithinDay (t : Z) : Z := t mod msPerDay.

Definition isLeapYear (y : Z) : bool :=
  if negb (y mod 4 =? 0) then false
  else if negb (y mod 100 =? 0) then true
  else if negb (y mod 400 =? 0) then false
  else true.

Definition DaysInYear (y : Z) : Z := if isLeapYear y then 366 else 365.

Definition DayFromYear (y : Z) : Z :=
  365 * (y - 1970) + (y - 1969) / 4 - (y - 1901) / 100 + (y - 1601) / 400.

Definition TimeFromYear (y : Z) : Z := msPerDay * DayFromYear y.

(** The largest [y] with [TimeFromYear y <= t]: a first estimate from the
    mean length of a Gregorian year, corrected by at most one year. *)
Definition YearFromTime (t : Z) : Z :=
  let d := Day t in
  let y := 1970 + (d * 400) / 146097 in
  if d <? DayFromYear y then y - 1
  else if DayFromYear (y + 1) <=? d then y + 1
  else y.

Definition InLeapYear (t : Z) : bool := isLeapYear (YearFromTime t).

Definition DayWithinYear (t : Z) : Z := Day t - DayFromYear (YearFromTime t).

(** Number of days of the year that precede month [m] (0 = January). *)
Definition DaysBeforeMonth (leap : bool) (m : Z) : Z :=
  let l := if leap then 1 else 0 in
  if m <=? 0 then 0
  else if m =? 1 then 31
  else if m =? 2 then 59 + l
  else if m =? 3 then 90 + l
  else if m =? 4 then 120 + l
  else if m =? 5 then 151 + l
  else if m =? 6 then 181 + l
  else if m =? 7 then 212 + l
  else if m =? 8 then 243 + l
  else if m =? 9 then 273 + l
  else if m =? 10 then 304 + l
  else if m =? 11 then 334 + l
  else 365 + l.

Definition MonthFromTime (t : Z) : Z :=
  let d := DayWithinYear t in
  let leap := InLeapYear t in
  if d <? DaysBeforeMonth leap 1 then 0
  else if d <? DaysBeforeMonth leap 2 then 1
  else if d <? DaysBeforeMonth leap 3 then 2
  else if d <? DaysBeforeMonth leap 4 then 3
  else if d <? DaysBeforeMonth leap 5 then 4
  else if d <? DaysBeforeMonth leap 6 then 5
  else if d <? DaysBeforeMonth leap 7 then 6
  else if d <? DaysBeforeMonth leap 8 then 7
  else if d <? DaysBeforeMonth leap 9 then 8
  else if d <? DaysBeforeMonth leap 10 then 9
  else if d <? DaysBeforeMonth leap 11 then 10
  else 11.

Definition DateFromTime (t : Z) : Z :=
  DayWithinYear t - DaysBeforeMonth (InLeapYear t) (MonthFromTime t) + 1.

Definition HourFromTime (t : Z) : Z := (t / msPerHour) mod 24.
Definition MinFromTime (t : Z) : Z := (t / msPerMinute) mod 60.
Definition SecFromTime (t : Z) : Z := (t / msPerSecond) mod 60.
Definition msFromTime (t : Z) : Z := t mod msPerSecond.

Definition MakeTime (h m s ms : Z) : Z :=
  h * msPerHour + m * msPerMinute + s * msPerSecond + ms.

Definition MakeDay (year month date : Z) : Z :=
  let ym := year + month / 12 in
  let mn := month mod 12 in
  DayFromYear ym + DaysBeforeMonth (isLeapYear ym) mn + date - 1.

Definition MakeDate (day time : Z) : Z := day * msPerDay + time.

(** *** The host time zone

    [offsetAtUTC t] is the local offset in force at the instant [t]
    ([LocalTZA(t, true)]); [offsetAtLocal tl] is the offset used to read the
    local wall-clock value [tl] back as an instant ([LocalTZA(tl, false)]). *)
Record TimeZone : Type := mkTimeZone {
  offsetAtUTC : Z -> Z;
  offsetAtLocal : Z -> Z
}.

Definition fixedZone (off : Z) : TimeZone :=
  mkTimeZone (fun _ => off) (fun _ => off).

Definition UTCZone : TimeZone := fixedZone 0.

Definition LocalTime (z : TimeZone) (t : Z) : Z := t + offsetAtUTC z t.
Definition UTC (z : TimeZone) (tl : Z) : Z := tl - offsetAtLocal z tl.

(** *** Date objects: a [Date] is its time value *)

Definition getTime (t : Z) : Z := t.
Definition getFullYear (z : TimeZone) (t : Z) : Z := YearFromTime (LocalTime z t).
Definition getMonth (z : TimeZone) (t : Z) : Z := MonthFromTime (LocalTime z t).
Definition getDate (z : TimeZone) (t : Z) : Z := DateFromTime (LocalTime z t).

(** [d.setDate(dt)]: same local month and time of day, day of month [dt]
    (out-of-range values roll over into the neighbouring months). *)
Definition setDate (z : TimeZone) (t dt : Z) : Z :=
  let tl := LocalTime z t in
  let newDate :=
    MakeDate (MakeDay (YearFromTime tl) (MonthFromTime tl) dt) (TimeWithinDay tl) in
  UTC z newDate.

(** [new Date(year, month, date)]: local midnight of that day; a year in
    0..99 means 1900 + year. *)
Definition newDate3 (z : TimeZone) (year month date : Z) : Z :=
  let yr := if (0 <=? year) && (year <=? 99) then 1900 + year else year in
  UTC z (MakeDate (MakeDay yr month date) (MakeTime 0 0 0 0)).

(** *** Strings *)

Definition digit (d : Z) : ascii := ascii_of_nat (48 + Z.to_nat d).

(** The last [w] decimal digits of [n], zero padded. *)
Fixpoint pad (w : nat) (n : Z) : string :=
  match w with
  | O => EmptyString
  | S w' => pad w' (n / 10) ++ String (digit (n mod 10)) EmptyString
  end.

(** [d.toISOString()]: the UTC fields; years outside 0..9999 are written
    with a sign and six digits. *)
Definition isoYear (y : Z) : string :=
  if (0 <=? y) && (y <=? 9999) then pad 4 y
  else if y <? 0 then "-" ++ pad 6 (- y)
  else "+" ++ pad 6 y.

Definition toISOString (t : Z) : string :=
  isoYear (YearFromTime t) ++ "-" ++ pad 2 (MonthFromTime t + 1) ++ "-" ++
  pad 2 (DateFromTime t) ++ "T" ++ pad 2 (HourFromTime t) ++ ":" ++
  pad 2 (MinFromTime t) ++ ":" ++ pad 2 (SecFromTime t) ++ "." ++
  pad 3 (msFromTime t) ++ "Z".

(** [s.split(c)[0]]: the part of [s] before the first [c]. *)
Fixpoint splitHead (c : ascii) (s : string) : string :=
  match s with
  | EmptyString => EmptyString
  | String a s' => if Ascii.eqb a c then EmptyString else String a (splitHead c s')
  end.

(** [String(n)] for an integer [n]: its decimal digits.  This is what
    JavaScript prints for every integer below 10^21 in magnitude, so for
    every safe integer (magnitude below 2^53); larger numbers are printed
    in exponent notation, which is not modelled. *)
Definition String_ (n : Z) : string := NilZero.string_of_int (Z.to_int n).

(** *** Numbers and arrays *)

(** [a % b] on integers: the sign follows the dividend, and a zero divisor
    gives [NaN]. *)
Definition rem (a b : Z) : option Z :=
  if b =? 0 then None else Some (Z.rem a b).

(** [arr[i]]: [undefined] when [i] is [NaN], negative or past the end. *)
Definition arrayGet {A : Type} (arr : list A) (i : option Z) : option A :=
  match i with
  | None => None
  | Some i => if i <? 0 then None else nth_error arr (Z.to_nat i)
  end.

(** [arr.slice(start, end)]: negative positions count from the end. *)
Definition relativeIndex (len i : Z) : Z :=
  if i <? 0 then Z.max (len + i) 0 else Z.min i len.

Definition slice {A : Type} (arr : list A) (start end_ : Z) : list A :=
  let len := Z.of_nat (List.length arr) in
  let k := relativeIndex len start in
  let final := relativeIndex len end_ in
  firstn (Z.to_nat (final - k)) (skipn (Z.to_nat k) arr).

(** [arr.sort(cmp)]: the sort is stable, so for a consistent comparator the
    result is the one that insertion from the right produces. *)
Section Sort.
Context {A : Type} (cmp : A -> A -> Z).

Fixpoint sortInsert (x : A) (l : list A) : list A :=
  match l with
  | [] => [x]
  | y :: l' => if cmp x y <=? 0 then x :: l else y :: sortInsert x l'
  end.

Definition sort (l : list A) : list A := fold_right sortInsert [] l.

(** [cmp] does not ask for [x] to be moved after [y]. *)
Definition comesBefore (x y : A) : Prop := cmp x y <= 0.
End Sort.

(** [a === b] where [a] is a string or [null]. *)
Definition strictEq (a : option string) (b : string) : bool :=
  match a with
  | Some s => String.eqb s b
  | None => false
  end.

(** [a || b] on numbers: [a] unless it is zero. *)
Definition orElse (a b : Z) : Z := if a =? 0 then b else a.

(** *** [parseInt(s)] with no radix

    Leading white space is skipped (the ASCII white space characters are
    modelled), then an optional sign, then [0x]/[0X] selects base 16;
    the longest prefix of digits is read and [NaN] results when it is
    empty.  The value read is exact; JavaScript's is the nearest double,
    which is the same number up to 2^53. *)
Definition isWhiteSpace (c : ascii) : bool :=
  let n := N_of_ascii c in
  ((9 <=? n) && (n <=? 13))%N || (n =? 32)%N.

Fixpoint skipWhiteSpace (s : string) : string :=
  match s with
  | String c s' => if isWhiteSpace c then skipWhiteSpace s' else s
  | EmptyString => s
  end.

Definition digitValue (c : ascii) : option Z :=
  let n := Z.of_N (N_of_ascii c) in
  if (48 <=? n) && (n <=? 57) then Some (n - 48)
  else if (97 <=? n) && (n <=? 122) then Some (n - 87)
  else if (65 <=? n) && (n <=? 90) then Some (n - 55)
  else None.

(** Reads digits of base [radix] from the front of [s]; [acc] is the value
    read so far, [None] while no digit has been read. *)
Fixpoint readDigits (radix : Z) (acc : option Z) (s : string) : option Z :=
  match s with
  | EmptyString => acc
  | String c s' =>
      match digitValue c with
      | Some d =>
          if d <? radix
          then readDigits radix (Some (radix * match acc with Some a => a | None => 0 end + d)) s'
          else acc
      | None => acc
      end
  end.

Definition parseInt (s : string) : option Z :=
  let s1 := skipWhiteSpace s in
  let '(sign, s2) :=
    match s1 with
    | String "-" r => (-1, r)
    | String "+" r => (1, r)
    | _ => (1, s1)
    end in
  let '(radix, s3) :=
    match s2 with
    | String "0" (String "x" r) => (16, r)
    | String "0" (String "X" r) => (16, r)
    | _ => (10, s2)
    end in
  match readDigits radix None s3 with
  | Some n => Some (sign * n)
  | None => None
  end.

(** *** Objects used as dictionaries

    An object is the list of its own properties in enumeration order:
    array-index keys (canonical decimal integers below 2^32 - 1) first, in
    ascending numeric order, then all other keys in insertion order.
    [JSON.stringify] followed by [JSON.parse] keeps that list. *)
Definition Obj (V : Type) : Type := list (string * V).

Definition arrayIndex (k : string) : option Z :=
  match k with
  | EmptyString => None
  | String c r =>
      if Ascii.eqb c "0" && negb (String.eqb r EmptyString) then None
      else match readDigits 10 None k with
           | Some n =>
               if (String.eqb (String_ n) k) && (n <? 2 ^ 32 - 1) then Some n else None
           | None => None
           end
  end.

Section Objects.
Context {V : Type}.

Fixpoint objGet (o : Obj V) (k : string) : option V :=
  match o with
  | [] => None
  | (k', v) :: o' => if String.eqb k' k then Some v else objGet o' k
  end.

Fixpoint objReplace (o : Obj V) (k : string) (v : V) : Obj V :=
  match o with
  | [] => []
  | (k', v') :: o' =>
      if String.eqb k' k then (k', v) :: o' else (k', v') :: objReplace o' k v
  end.

(** A new array-index key [k] = [n] goes before the first property that
    is no array index or a larger one. *)
Fixpoint objInsertIndex (o : Obj V) (n : Z) (k : string) (v : V) : Obj V :=
  match o with
  | [] => [(k, v)]
  | (k', v') :: o' =>
      match arrayIndex k' with
      | Some n' =>
          if n' <? n then (k', v') :: objInsertIndex o' n k v else (k, v) :: o
      | None => (k, v) :: o
      end
  end.

(** [o[k] = v] *)
Definition objSet (o : Obj V) (k : string) (v : V) : Obj V :=
  match objGet o k with
  | Some _ => objReplace o k v
  | None =>
      match arrayIndex k with
      | Some n => objInsertIndex o n k v
      | None => (o ++ [(k, v)])%list
      end
  end.

(** [Object.values(o)] *)
Definition objValues (o : Obj V) : list V := map snd o.
End Objects.

End JS.

(* ================================================================= *)
(** ** The server *)

Module Server.
Import JS.

(** *** Types *)

Module Answer.
Record t : Type := mk { correct : bool; date : string }.
End Answer.

Record UserData : Type := mkUserData {
  fid : Z;
  username : option string;
  currentStreak : Z;
  longestStreak : Z;
  lastPlayed : option string;
  lastCorrect : bool;
  totalPlayed : Z;
  totalCorrect : Z;
  answers : Obj Answer.t
}.

(** [Partial<UserData>]: a field is [None] when the literal does not list
    it.  [username] is listed with a value that may be [undefined]. *)
Module Partial.
Record t : Type := mk {
  fid : option Z;
  username : option (option string);
  currentStreak : option Z;
  longestStreak : option Z;
  lastPlayed : option (option string);
  lastCorrect : option bool;
  totalPlayed : option Z;
  totalCorrect : option Z;
  answers : option (Obj Answer.t)
}.
End Partial.

Record UsersDB : Type := mkUsersDB { users : Obj UserData }.

Module Question.
Record t : Type := mk {
  id : Z;
  question : string;
  options : list string;
  correct : Z;
  category : string;
  funFact : string
}.
End Question.

Record LeaderboardEntry : Type := mkEntry {
  entryFid : Z;
  entryUsername : option string;
  streak : Z;
  total : Z
}.

(** *** The users file and the monad of functions that touch it *)

(** [None]: the file is missing or does not parse. *)
Definition Disk : Type := option UsersDB.

Definition M (A : Type) : Type := Disk -> A * Disk.

Definition ret {A : Type} (a : A) : M A := fun d => (a, d).

Definition bind {A B : Type} (m : M A) (k : A -> M B) : M B :=
  fun d => let '(a, d') := m d in k a d'.

Notation "x <- m ;; k" := (bind m (fun x => k))
  (at level 61, m at next level, right associativity).
Notation "m ;;; k" := (bind m (fun _ => k))
  (at level 61, right associativity).

(** *** Load/save users *)

Definition loadUsers : M UsersDB :=
  fun d =>
    match d with
    | Some db => (db, d)
    | None => (mkUsersDB [], d)
    end.

Definition saveUsers (db : UsersDB) : M unit := fun _ => (tt, Some db).

Definition newUser (fid : Z) : UserData :=
  {| fid := fid;
     username := None;
     currentStreak := 0;
     longestStreak := 0;
     lastPlayed := None;
     lastCorrect := false;
     totalPlayed := 0;
     totalCorrect := 0;
     answers := [] |}.

Definition getUser (fid : Z) : M UserData :=
  db <- loadUsers ;;
  let key := String_ fid in
  match objGet (users db) key with
  | None =>
      let db := mkUsersDB (objSet (users db) key (newUser fid)) in
      saveUsers db ;;;
      ret (newUser fid)
  | Some u => ret u
  end.

(** [{ ...u, ...data }] *)
Definition spread (u : UserData) (data : Partial.t) : UserData :=
  let pick {A : Type} (new : option A) (old : A) : A :=
    match new with Some x => x | None => old end in
  {| fid := pick (Partial.fid data) (fid u);
     username := pick (Partial.username data) (username u);
     currentStreak := pick (Partial.currentStreak data) (currentStreak u);
     longestStreak := pick (Partial.longestStreak data) (longestStreak u);
     lastPlayed := pick (Partial.lastPlayed data) (lastPlayed u);
     lastCorrect := pick (Partial.lastCorrect data) (lastCorrect u);
     totalPlayed := pick (Partial.totalPlayed data) (totalPlayed u);
     totalCorrect := pick (Partial.totalCorrect data) (totalCorrect u);
     answers := pick (Partial.answers data) (answers u) |}.

Definition updateUser (fid : Z) (data : Partial.t) : M UserData :=
  db <- loadUsers ;;
  let key := String_ fid in
  u <- getUser fid ;;
  let db := mkUsersDB (objSet (users db) key (spread u data)) in
  saveUsers db ;;;
  ret (spread u data).

(** *** Responses: the JSON payload and the HTTP status *)

Inductive Payload : Type :=
| InvalidFid
| UserInfo (user : UserData) (hasPlayedToday : bool)
    (todaysAnswer : option Answer.t) (question : option Question.t)
    (questionNumber : Z)
| MissingFields
| AlreadyPlayed (user : UserData) (todaysAnswer : option Answer.t)
| Scored (isCorrect : bool) (correctAnswer : Z) (user : UserData)
    (funFact : string)
| Leaderboard (leaderboard : list LeaderboardEntry)
| PublicQuestion (id : Z) (question : string) (options : list string)
    (category : string) (questionNumber : Z)
| InternalServerError.

Definition Response : Type := (Payload * Z)%type.

Definition json (p : Payload) (status : Z) : Response := (p, status).

(** An uncaught [TypeError] (a property read on [undefined]): the framework
    answers 500. *)
Definition throwTypeError : Response := (InternalServerError, 500).

Module Body.
Record t : Type := mk {
  fid : option Z;
  username : option string;
  answerIndex : option Z
}.
End Body.

Section Handlers.
(** The question catalog ([questions.json]), the host time zone and the
    clock reading of the request. *)
Variable questions : list Question.t.
Variable zone : TimeZone.
Variable now : Z.

(** *** Date utilities *)

Definition getTodayString : string :=
  splitHead "T" (toISOString now).

Definition getYesterdayString : string :=
  let yesterday := now in
  let yesterday := setDate zone yesterday (getDate zone yesterday - 1) in
  splitHead "T" (toISOString yesterday).

(** *** Today's question *)

Definition seed : Z :=
  let today := now in
  getFullYear zone today * 10000 + (getMonth zone today + 1) * 100
  + getDate zone today.

Definition getTodaysQuestion : option Question.t :=
  let index := rem seed (Z.of_nat (List.length questions)) in
  arrayGet questions index.

Definition getQuestionNumber : Z :=
  let today := now in
  let start := newDate3 zone (getFullYear zone today) 0 0 in
  let diff := getTime today - getTime start in
  let oneDay := 1000 * 60 * 60 * 24 in
  diff / oneDay.

(** *** Leaderboard *)

Definition compareUsers (a b : UserData) : Z :=
  orElse (longestStreak b - longestStreak a) (totalCorrect b - totalCorrect a).

Definition toEntry (u : UserData) : LeaderboardEntry :=
  {| entryFid := fid u;
     entryUsername := username u;
     streak := longestStreak u;
     total := totalCorrect u |}.

Definition getLeaderboard (limit : option Z) : M (list LeaderboardEntry) :=
  let limit := match limit with Some l => l | None => 10 end in
  db <- loadUsers ;;
  ret (map toEntry (slice (sort compareUsers (objValues (users db))) 0 limit)).

(** *** API: get user data *)

Definition apiUser (param : string) : M Response :=
  match parseInt param with
  | None => ret (json InvalidFid 400)
  | Some fid =>
      user <- getUser fid ;;
      let today := getTodayString in
      let hasPlayedToday := strictEq (lastPlayed user) today in
      ret (json (UserInfo user hasPlayedToday
                   (if hasPlayedToday then objGet (answers user) today else None)
                   getTodaysQuestion getQuestionNumber) 200)
  end.

(** *** API: submit answer *)

Definition apiAnswer (body : Body.t) : M Response :=
  match Body.fid body, Body.answerIndex body with
  | Some fid, Some answerIndex =>
      if fid =? 0 then ret (json MissingFields 400)
      else
        user <- getUser fid ;;
        let today := getTodayString in
        let yesterday := getYesterdayString in
        let question := getTodaysQuestion in
        if strictEq (lastPlayed user) today
        then ret (json (AlreadyPlayed user (objGet (answers user) today)) 400)
        else
          match question with
          | None => ret throwTypeError
          | Some question =>
              let isCorrect := answerIndex =? Question.correct question in
              let newStreak :=
                if isCorrect then
                  if strictEq (lastPlayed user) yesterday && lastCorrect user
                  then currentStreak user + 1
                  else 1
                else 0 in
              updatedUser <- updateUser fid
                {| Partial.fid := None;
                   Partial.username :=
                     Some match Body.username body with
                          | Some (String c s) => Some (String c s)
                          | _ => username user
                          end;
                   Partial.currentStreak := Some newStreak;
                   Partial.longestStreak :=
                     Some (Z.max newStreak (longestStreak user));
                   Partial.lastPlayed := Some (Some today);
                   Partial.lastCorrect := Some isCorrect;
                   Partial.totalPlayed := Some (totalPlayed user + 1);
                   Partial.totalCorrect :=
                     Some (totalCorrect user + (if isCorrect then 1 else 0));
                   Partial.answers :=
                     Some (objSet (answers user) today
                             (Answer.mk isCorrect today)) |} ;;
              ret (json (Scored isCorrect (Question.correct question)
                           updatedUser (Question.funFact question)) 200)
          end
  | _, _ => ret (json MissingFields 400)
  end.

(** *** API: leaderboard *)

Definition apiLeaderboard : M Response :=
  leaderboard <- getLeaderboard (Some 20) ;;
  ret (json (Leaderboard leaderboard) 200).

(** *** API: today's question (public, no answers) *)

Definition apiQuestion : M Response :=
  match getTodaysQuestion with
  | None => ret throwTypeError
  | Some q =>
      ret (json (PublicQuestion (Question.id q) (Question.question q)
                   (Question.options q) (Question.category q)
                   getQuestionNumber) 200)
  end.

End Handlers.

End Server.

(* ================================================================= *)
(** ** What the claims speak about *)

Module Props.
Import JS Server.

(** The records held by the users file. *)
Definition stored (d : Disk) : Obj UserData := users (fst (loadUsers d)).

Definition lookupUser (d : Disk) (key : string) : option UserData :=
  objGet (stored d) key.

(** The local calendar day of a clock reading, and its 1-based number
    within its year. *)
Definition dayOfYear (zone : TimeZone) (now : Z) : Z :=
  DayWithinYear (LocalTime zone now) + 1.

(** Ranking order of the leaderboard: longer streak first, and among equal
    streaks the larger total first. *)
Definition rankedBefore (a b : LeaderboardEntry) : Prop :=
  streak a > streak b \/ (streak a = streak b /\ total a >= total b).

Definition userRankedBefore (a b : UserData) : Prop :=
  rankedBefore (toEntry a) (toEntry b).

(** The log of scored submissions, newest first: user key and day key. *)
Definition ScoredLog : Type := list (string * string).

Fixpoint mostRecentScored (log : ScoredLog) (key : string) : option string :=
  match log with
  | [] => None
  | (k, day) :: log' => if String.eqb k key then Some day else mostRecentScored log' key
  end.

(** The log after a submission: a [Scored] response adds today's entry. *)
Definition logAfter (body : Body.t) (today : string) (r : Response)
    (log : ScoredLog) : ScoredLog :=
  match r, Body.fid body with
  | (Scored _ _ _ _, _), Some fid => (String_ fid, today) :: log
  | _, _ => log
  end.

(** The record invariant; [recent] is the user's most recent scored day. *)
Definition recordOk (recent : option string) (u : UserData) : Prop :=
  longestStreak u >= currentStreak u /\
  totalCorrect u <= totalPlayed u /\
  (currentStreak u > 0 ->
   lastCorrect u = true /\
   exists day, lastPlayed u = Some day /\ recent = Some day).

Definition storeOk (log : ScoredLog) (d : Disk) : Prop :=
  forall key u, lookupUser d key = Some u -> recordOk (mostRecentScored log key) u.

(** The record that a scored submission stores: [user] is the record read
    at the start of the request, [name] the body's [username]. *)
Definition scoredRecord (user : UserData) (name : option string)
    (today yesterday : string) (isCorrect : bool) : UserData :=
  let newStreak :=
    if isCorrect then
      if strictEq (lastPlayed user) yesterday && lastCorrect user
      then currentStreak user + 1 else 1
    else 0 in
  {| fid := fid user;
     username :=
       match name with
       | Some (String c s) => Some (String c s)
       | _ => username user
       end;
     currentStreak := newStreak;
     longestStreak := Z.max newStreak (longestStreak user);
     lastPlayed := Some today;
     lastCorrect := isCorrect;
     totalPlayed := totalPlayed user + 1;
     totalCorrect := totalCorrect user + (if isCorrect then 1 else 0);
     answers := objSet (answers user) today (Answer.mk isCorrect today) |}.

(** An answer index that no option of the question has. *)
Definition outOfRange (q : Question.t) (i : Z) : Prop :=
  i < 0 \/ i >= Z.of_nat (List.length (Question.options q)).

Definition wellFormedQuestion (q : Question.t) : Prop :=
  0 <= Question.correct q < Z.of_nat (List.length (Question.options q)).

End Props.

(* ================================================================= *)
(** ** Sample data *)

Module Sample.
Import JS Server.

Definition questions : list Question.t :=
  [ Question.mk 1 "Q1" ["a"; "b"; "c"; "d"] 2 "History" "F1";
    Question.mk 2 "Q2" ["a"; "b"; "c"; "d"] 0 "Culture" "F2";
    Question.mk 3 "Q3" ["a"; "b"; "c"; "d"] 3 "Protocols" "F3" ].

(** US Eastern time with the daylight-saving period of 2024
    (10 March 07:00 UTC to 3 November 06:00 UTC). *)
Definition newYork2024 : TimeZone :=
  mkTimeZone
    (fun t => if (1710054000000 <=? t) && (t <? 1730613600000)
              then -4 * msPerHour else -5 * msPerHour)
    (fun tl => if (1710036000000 <=? tl) && (tl <? 1730599200000)
               then -4 * msPerHour else -5 * msPerHour).

(** 2024-07-01T04:30:00Z, which is 00:30 on 1 July in New York. *)
Definition july1 : Z := 1719808200000.

(** 2024-11-04T00:30:00Z, which is 19:30 on 3 November in New York, the
    day the clocks went back. *)
Definition november4 : Z := 1730680200000.

(** 2024-11-02T16:00:00Z, which is noon on 2 November in New York. *)
Definition november2 : Z := 1730563200000.

(** 2024-07-02T12:00:00Z and 2024-07-03T12:00:00Z. *)
Definition july2 : Z := 1719921600000.
Definition july3 : Z := 1720008000000.

Definition player (fid longest correct played : Z) : UserData :=
  {| fid := fid;
     username := None;
     currentStreak := 0;
     longestStreak := longest;
     lastPlayed := None;
     lastCorrect := false;
     totalPlayed := played;
     totalCorrect := correct;
     answers := [] |}.

(** A user on a three-day streak whose last correct answer was on
    2024-07-01. *)
Definition alice : UserData :=
  {| fid := 42;
     username := Some "alice";
     currentStreak := 3;
     longestStreak := 5;
     lastPlayed := Some "2024-07-01";
     lastCorrect := true;
     totalPlayed := 9;
     totalCorrect := 7;
     answers := [("2024-07-01", Answer.mk true "2024-07-01")] |}.

Definition aliceOnly : Disk := Some (mkUsersDB [("42", alice)]).

(** A user who has played once, on 2024-07-01, and answered wrong. *)
Definition bob : UserData :=
  {| fid := 7;
     username := Some "bob";
     currentStreak := 0;
     longestStreak := 0;
     lastPlayed := Some "2024-07-01";
     lastCorrect := false;
     totalPlayed := 1;
     totalCorrect := 0;
     answers := [("2024-07-01", Answer.mk false "2024-07-01")] |}.

Definition bobOnly : Disk := Some (mkUsersDB [("7", bob)]).

Definition threeUsers : Disk :=
  Some (mkUsersDB [("1", player 1 5 10 12); ("2", player 2 5 12 12);
                   ("3", player 3 3 20 25)]).

End Sample.

(* ================================================================= *)
(** ** Further notions used to describe the code *)

Module Derived.
Import JS Server Props.

(** The date part of [toISOString]. *)
Definition isoDate (t : Z) : string :=
  isoYear (YearFromTime t) ++ "-" ++ pad 2 (MonthFromTime t + 1) ++ "-" ++
  pad 2 (DateFromTime t).

(** Time values whose UTC year is written with four digits. *)
Definition fourDigitYear (t : Z) : Prop := 0 <= YearFromTime t <= 9999.

(** A property of every stored record. *)
Definition allStored (P : UserData -> Prop) (d : Disk) : Prop :=
  forall key u, lookupUser d key = Some u -> P u.

(** The counters of a record, in their order. *)
Definition countersOk (u : UserData) : Prop :=
  0 <= currentStreak u /\ currentStreak u <= longestStreak u
  /\ longestStreak u <= totalCorrect u /\ totalCorrect u <= totalPlayed u
  /\ Z.of_nat (List.length (answers u)) <= totalPlayed u.

(** The history of a record: every entry carries its own day, and the last
    played day has an entry that tells whether that answer was correct. *)
Definition historyOk (u : UserData) : Prop :=
  (forall day a, objGet (answers u) day = Some a -> Answer.date a = day)
  /\ (forall day, lastPlayed u = Some day ->
        objGet (answers u) day = Some (Answer.mk (lastCorrect u) day)).


(** Two users that the ranking does not tell apart. *)
Definition sameRank (a b : UserData) : bool :=
  (longestStreak a =? longestStreak b) && (totalCorrect a =? totalCorrect b).

(** The position in the catalog that the seed selects. *)
Definition catalogIndex (questions : list Question.t) (zone : TimeZone)
    (now : Z) : Z :=
  seed zone now mod Z.of_nat (List.length questions).

(** [l1] is the start of [l2]. *)
Definition isPrefix {A : Type} (l1 l2 : list A) : Prop :=
  exists rest, l2 = (l1 ++ rest)%list.

(** [Number.isSafeInteger]: the integers that a double holds exactly and
    that [String] prints in plain decimal digits. *)
Definition safeInteger (n : Z) : Prop := - (2 ^ 53 - 1) <= n <= 2 ^ 53 - 1.

End Derived.

(* ================================================================= *)
(** ** The answer endpoint as the request reaches it

    [Server.apiAnswer] takes a body of the declared types and one clock
    reading.  The handler itself parses any JSON body and reads the clock
    three times: once in [getTodayString], once in [getYesterdayString] and
    once in [getTodaysQuestion].  [apiAnswerAt] is the same handler with
    the three readings apart and with the body as JSON delivers it. *)

Module Wire.
Import JS Server Props.

(** A JSON value, as far as the handler looks at one: [JCompound] is any
    array or object. *)
Inductive Json : Type :=
| JNull
| JBool (b : bool)
| JNum (n : Z)
| JStr (s : string)
| JCompound.

(** A field of declared type [A]: absent ([undefined]), [null], or a
    value. *)
Inductive Field (A : Type) : Type :=
| Absent
| Null
| Value (a : A).
Arguments Absent {A}.
Arguments Null {A}.
Arguments Value {A} a.

(** The body of a submission.  [fid] is handed to [getUser(fid: number)]
    and [username] is stored in [username?: string], so they are of these
    types when they are there and not [null]; nothing declares a type for
    [answerIndex]. *)
Record RawBody : Type := mkRawBody {
  fid : Field Z;
  username : Field string;
  answerIndex : option Json
}.

(** [v === n] for a number [n]. *)
Definition strictEqNum (v : Json) (n : Z) : bool :=
  match v with
  | JNum m => m =? n
  | _ => false
  end.

(** The [username] of the body as [username || user.username] sees it. *)
Definition nameOf (f : Field string) : option string :=
  match f with
  | Value s => Some s
  | _ => None
  end.

Definition apiAnswerAt (questions : list Question.t) (zone : TimeZone)
    (nowToday nowYesterday nowQuestion : Z) (body : RawBody) : M Response :=
  match fid body, answerIndex body with
  | Value fid, Some answerIndex =>
      if fid =? 0 then ret (json MissingFields 400)
      else
        user <- getUser fid ;;
        let today := getTodayString nowToday in
        let yesterday := getYesterdayString zone nowYesterday in
        let question := getTodaysQuestion questions zone nowQuestion in
        if strictEq (lastPlayed user) today
        then ret (json (AlreadyPlayed user (objGet (answers user) today)) 400)
        else
          match question with
          | None => ret throwTypeError
          | Some question =>
              let isCorrect := strictEqNum answerIndex (Question.correct question) in
              let newStreak :=
                if isCorrect then
                  if strictEq (lastPlayed user) yesterday && lastCorrect user
                  then currentStreak user + 1
                  else 1
                else 0 in
              updatedUser <- updateUser fid
                {| Partial.fid := None;
                   Partial.username :=
                     Some match username body with
                          | Value (String c s) => Some (String c s)
                          | _ => Server.username user
                          end;
                   Partial.currentStreak := Some newStreak;
                   Partial.longestStreak :=
                     Some (Z.max newStreak (longestStreak user));
                   Partial.lastPlayed := Some (Some today);
                   Partial.lastCorrect := Some isCorrect;
                   Partial.totalPlayed := Some (totalPlayed user + 1);
                   Partial.totalCorrect :=
                     Some (totalCorrect user + (if isCorrect then 1 else 0));
                   Partial.answers :=
                     Some (objSet (answers user) today
                             (Answer.mk isCorrect today)) |} ;;
              ret (json (Scored isCorrect (Question.correct question)
                           updatedUser (Question.funFact question)) 200)
          end
  | _, _ => ret (json MissingFields 400)
  end.

(** A body of the declared types, as JSON delivers it. *)
Definition toRaw (body : Body.t) : RawBody :=
  {| fid := match Body.fid body with Some n => Value n | None => Absent end;
     username :=
       match Body.username body with Some s => Value s | None => Absent end;
     answerIndex :=
       match Body.answerIndex body with Some n => Some (JNum n) | None => None end |}.

End Wire.

(* ================================================================= *)
(** ** Facts about the JavaScript layer *)

Module JSFacts.
Import JS.

(** *** Calendar *)

Lemma DayFromYear_succ (y : Z) :
  DayFromYear (y + 1) = DayFromYear y + DaysInYear y.
Proof.
  unfold DayFromYear, DaysInYear, isLeapYear.
  repeat match goal with
         | |- context [negb (?a =? ?b)] => destruct (Z.eqb_spec a b); cbn [negb]
         end;
  Z.to_euclidean_division_equations; lia.
Qed.

Lemma DaysInYear_range (y : Z) : 365 <= DaysInYear y <= 366.
Proof. unfold DaysInYear. destruct (isLeapYear y); lia. Qed.

(** [YearFromTime t] is the year whose days contain [Day t]. *)
Lemma YearFromTime_spec (t : Z) :
  DayFromYear (YearFromTime t) <= Day t < DayFromYear (YearFromTime t + 1).
Proof.
  unfold YearFromTime. generalize (Day t). intros d.
  set (y := 1970 + d * 400 / 146097).
  assert (Hy : DayFromYear (y - 1) <= d < DayFromYear (y + 2)).
  { unfold DayFromYear, y. Z.to_euclidean_division_equations; lia. }
  destruct (Z.ltb_spec d (DayFromYear y)).
  - replace (y - 1 + 1) with y by lia. lia.
  - destruct (Z.leb_spec (DayFromYear (y + 1)) d).
    + replace (y + 1 + 1) with (y + 2) by lia. lia.
    + lia.
Qed.

Lemma DayWithinYear_range (t : Z) :
  0 <= DayWithinYear t < DaysInYear (YearFromTime t).
Proof.
  unfold DayWithinYear.
  pose proof (YearFromTime_spec t) as H.
  rewrite DayFromYear_succ in H. lia.
Qed.

Lemma MonthFromTime_range (t : Z) : 0 <= MonthFromTime t <= 11.
Proof.
  unfold MonthFromTime.
  repeat match goal with
         | |- context [if ?c then _ else _] => destruct c
         end; lia.
Qed.

Lemma DateFromTime_range (t : Z) : 1 <= DateFromTime t <= 31.
Proof.
  pose proof (DayWithinYear_range t) as H.
  unfold DateFromTime, MonthFromTime, InLeapYear, DaysInYear in *.
  revert H. generalize (DayWithinYear t). intros d H.
  destruct (isLeapYear (YearFromTime t));
  repeat match goal with
         | |- context [if ?a <? DaysBeforeMonth ?b ?m then _ else _] =>
             let v := eval vm_compute in (DaysBeforeMonth b m) in
             change (DaysBeforeMonth b m) with v;
             destruct (Z.ltb_spec a v)
         end;
  match goal with
  | |- context [DaysBeforeMonth ?b ?m] =>
      let v := eval vm_compute in (DaysBeforeMonth b m) in
      change (DaysBeforeMonth b m) with v
  end; lia.
Qed.

Lemma Day_MakeDate (day time : Z) :
  0 <= time < msPerDay -> Day (MakeDate day time) = day.
Proof.
  intros H. unfold Day, MakeDate, msPerDay in *.
  Z.to_euclidean_division_equations; lia.
Qed.

(** *** Objects *)

Section ObjectFacts.
Context {V : Type}.
Implicit Types (o : Obj V) (k : string) (v : V).

Lemma objGet_objReplace o k v k' :
  objGet (objReplace o k v) k' =
  if String.eqb k k' then
    match objGet o k with Some _ => Some v | None => None end
  else objGet o k'.
Proof.
  induction o as [|[k0 v0] o IH]; cbn.
  - now destruct (String.eqb k k').
  - destruct (String.eqb_spec k0 k) as [->|Hk0].
    + cbn. destruct (String.eqb_spec k k'); reflexivity.
    + cbn. rewrite IH.
      destruct (String.eqb_spec k0 k') as [->|Hk0'].
      * destruct (String.eqb_spec k k'); [congruence | reflexivity].
      * reflexivity.
Qed.

Lemma objGet_objInsertIndex o n k v k' :
  objGet o k = None ->
  objGet (objInsertIndex o n k v) k' =
  if String.eqb k k' then Some v else objGet o k'.
Proof.
  induction o as [|[k0 v0] o IH]; cbn; intros Hnone.
  - reflexivity.
  - destruct (String.eqb_spec k0 k) as [->|Hk0]; [discriminate|].
    destruct (arrayIndex k0) as [n0|]; [destruct (n0 <? n)|]; cbn;
      try reflexivity.
    rewrite (IH Hnone).
    destruct (String.eqb_spec k0 k'), (String.eqb_spec k k');
      congruence.
Qed.

Lemma objGet_app o k v k' :
  objGet o k = None ->
  objGet (o ++ [(k, v)])%list k' =
  if String.eqb k k' then Some v else objGet o k'.
Proof.
  induction o as [|[k0 v0] o IH]; cbn; intros Hnone.
  - reflexivity.
  - destruct (String.eqb_spec k0 k) as [->|Hk0]; [discriminate|].
    rewrite (IH Hnone).
    destruct (String.eqb_spec k0 k'), (String.eqb_spec k k');
      congruence.
Qed.

(** Reading a property after an assignment. *)
Lemma objGet_objSet o k v k' :
  objGet (objSet o k v) k' = if String.eqb k k' then Some v else objGet o k'.
Proof.
  unfold objSet. destruct (objGet o k) eqn:Hget.
  - rewrite objGet_objReplace, Hget. reflexivity.
  - destruct (arrayIndex k).
    + now apply objGet_objInsertIndex.
    + now apply objGet_app.
Qed.

Lemma objGet_objSet_same o k v : objGet (objSet o k v) k = Some v.
Proof. rewrite objGet_objSet, String.eqb_refl. reflexivity. Qed.

Lemma objGet_objSet_other o k v k' :
  k <> k' -> objGet (objSet o k v) k' = objGet o k'.
Proof.
  intros H. rewrite objGet_objSet.
  destruct (String.eqb_spec k k'); [contradiction | reflexivity].
Qed.

Lemma objGet_In o k v : objGet o k = Some v -> In v (objValues o).
Proof.
  induction o as [|[k0 v0] o IH]; cbn; [discriminate|].
  destruct (String.eqb k0 k); intros H.
  - left. congruence.
  - right. now apply IH.
Qed.
End ObjectFacts.

(** *** Arrays *)

Lemma slice_from_0 {A : Type} (arr : list A) (n : Z) :
  0 <= n -> slice arr 0 n = firstn (Z.to_nat n) arr.
Proof.
  intros Hn. unfold slice, relativeIndex.
  destruct (Z.ltb_spec n 0); [lia|]. cbn [Z.ltb Z.compare Z.min].
  replace (Z.min 0 (Z.of_nat (List.length arr))) with 0 by lia.
  cbn [Z.to_nat skipn]. rewrite Z.sub_0_r.
  destruct (Z.le_ge_cases n (Z.of_nat (List.length arr))).
  - rewrite Z.min_l by lia. reflexivity.
  - rewrite Z.min_r by lia. rewrite Nat2Z.id.
    rewrite !firstn_all2; [reflexivity | lia | lia].
Qed.

Lemma slice_to_negative {A : Type} (arr : list A) (n : Z) :
  n < 0 ->
  slice arr 0 n = firstn (Z.to_nat (Z.of_nat (List.length arr) + n)) arr.
Proof.
  intros Hn. unfold slice, relativeIndex.
  destruct (Z.ltb_spec n 0); [|lia]. cbn [Z.ltb Z.compare Z.min].
  replace (Z.min 0 (Z.of_nat (List.length arr))) with 0 by lia.
  cbn [Z.to_nat skipn]. rewrite Z.sub_0_r.
  destruct (Z.le_ge_cases 0 (Z.of_nat (List.length arr) + n)).
  - rewrite Z.max_l by lia. reflexivity.
  - rewrite Z.max_r by lia.
    replace (Z.to_nat (Z.of_nat (List.length arr) + n)) with 0%nat by lia.
    reflexivity.
Qed.

Lemma In_firstn {A : Type} (n : nat) (l : list A) (x : A) :
  In x (firstn n l) -> In x l.
Proof.
  revert l. induction n as [|n IH]; intros [|y l]; cbn; try tauto.
  intros [H|H]; [now left | right; now apply IH].
Qed.

Lemma StronglySorted_firstn {A : Type} (R : A -> A -> Prop) (n : nat) (l : list A) :
  StronglySorted R l -> StronglySorted R (firstn n l).
Proof.
  intros H. revert n. induction H as [|x l Hl IH Hx]; intros [|n]; cbn;
    try constructor.
  - apply IH.
  - rewrite Forall_forall in *. intros y Hy. apply Hx.
    eapply In_firstn; eauto.
Qed.

Lemma StronglySorted_map {A B : Type} (f : A -> B) (R : B -> B -> Prop) (l : list A) :
  StronglySorted (fun a b => R (f a) (f b)) l -> StronglySorted R (map f l).
Proof.
  induction 1 as [|x l Hl IH Hx]; cbn; constructor; auto.
  rewrite Forall_forall in *. intros y Hy.
  apply in_map_iff in Hy as [a [<- Ha]]. auto.
Qed.

(** *** Sorting with a consistent comparator *)

Section SortFacts.
Context {A : Type} (cmp : A -> A -> Z).
Hypothesis cmp_total : forall x y, comesBefore cmp x y \/ comesBefore cmp y x.
Hypothesis cmp_trans :
  forall x y z, comesBefore cmp x y -> comesBefore cmp y z -> comesBefore cmp x z.

Lemma sortInsert_perm (x : A) (l : list A) :
  Permutation (sortInsert cmp x l) (x :: l).
Proof.
  induction l as [|y l IH]; cbn; [reflexivity|].
  destruct (cmp x y <=? 0); [reflexivity|].
  rewrite IH. apply perm_swap.
Qed.

Lemma sort_perm (l : list A) : Permutation (sort cmp l) l.
Proof.
  induction l as [|x l IH]; cbn; [reflexivity|].
  rewrite sortInsert_perm. now constructor.
Qed.

Lemma sortInsert_sorted (x : A) (l : list A) :
  StronglySorted (comesBefore cmp) l ->
  StronglySorted (comesBefore cmp) (sortInsert cmp x l).
Proof.
  induction 1 as [|y l Hl IH Hy]; cbn.
  - repeat constructor.
  - destruct (Z.leb_spec (cmp x y) 0) as [Hxy|Hxy].
    + constructor; [now constructor|].
      constructor; [exact Hxy|].
      rewrite Forall_forall in *. intros z Hz. eapply cmp_trans; eauto.
    + constructor; [exact IH|].
      rewrite Forall_forall in *. intros z Hz.
      apply (Permutation_in _ (sortInsert_perm x l)) in Hz.
      destruct Hz as [<-|Hz]; [|auto].
      destruct (cmp_total x y) as [H|H]; [unfold comesBefore in H; lia | exact H].
Qed.

Lemma sort_sorted (l : list A) : StronglySorted (comesBefore cmp) (sort cmp l).
Proof.
  induction l as [|x l IH]; cbn; [constructor|].
  now apply sortInsert_sorted.
Qed.
End SortFacts.

End JSFacts.

(* ================================================================= *)
(** ** Facts about the user store *)

Module StoreFacts.
Import JS Server Props JSFacts.

Lemma getUser_existing (fid : Z) (d : Disk) (u : UserData) :
  lookupUser d (String_ fid) = Some u -> getUser fid d = (u, d).
Proof.
  unfold lookupUser, stored, getUser, bind. intros H.
  destruct (loadUsers d) as [db d'] eqn:Hload. cbn in H.
  assert (d' = d) as -> by (destruct d; cbn in Hload; congruence).
  now rewrite H.
Qed.

Lemma getUser_fresh (fid : Z) (d : Disk) :
  lookupUser d (String_ fid) = None ->
  getUser fid d =
  (newUser fid, Some (mkUsersDB (objSet (stored d) (String_ fid) (newUser fid)))).
Proof.
  unfold lookupUser, stored, getUser, bind. intros H.
  destruct (loadUsers d) as [db d'] eqn:Hload. cbn in H |- *.
  now rewrite H.
Qed.

(** After [getUser] the record it returned is the stored one. *)
Lemma getUser_stored (fid : Z) (d : Disk) :
  lookupUser (snd (getUser fid d)) (String_ fid) = Some (fst (getUser fid d)).
Proof.
  destruct (lookupUser d (String_ fid)) as [u|] eqn:H.
  - rewrite (getUser_existing _ _ _ H). exact H.
  - rewrite (getUser_fresh _ _ H). cbn. unfold lookupUser, stored. cbn.
    apply objGet_objSet_same.
Qed.

(** [getUser] leaves every other record alone. *)
Lemma getUser_other (fid : Z) (d : Disk) (key : string) :
  key <> String_ fid ->
  lookupUser (snd (getUser fid d)) key = lookupUser d key.
Proof.
  intros Hk. destruct (lookupUser d (String_ fid)) as [u|] eqn:H.
  - now rewrite (getUser_existing _ _ _ H).
  - rewrite (getUser_fresh _ _ H). cbn. unfold lookupUser at 1, stored at 1. cbn.
    apply objGet_objSet_other. congruence.
Qed.

Lemma updateUser_run (fid : Z) (data : Partial.t) (d : Disk) (u : UserData) :
  lookupUser d (String_ fid) = Some u ->
  updateUser fid data d =
  (spread u data,
   Some (mkUsersDB (objSet (stored d) (String_ fid) (spread u data)))).
Proof.
  intros H. unfold updateUser, bind.
  destruct (loadUsers d) as [db d'] eqn:Hload.
  assert (d' = d) as -> by (destruct d; cbn in Hload; congruence).
  rewrite (getUser_existing _ _ _ H). cbn.
  unfold stored. now rewrite Hload.
Qed.

End StoreFacts.

(* ================================================================= *)
(** ** The answer endpoint *)

Module AnswerFacts.
Import JS Server Props JSFacts StoreFacts.

Section Submit.
Variable questions : list Question.t.
Variable zone : TimeZone.
Variable now : Z.

(** The three ways a request that names a user and an answer ends. *)
Lemma apiAnswer_run (body : Body.t) (fid answerIndex : Z) (d : Disk) :
  Body.fid body = Some fid -> fid <> 0 ->
  Body.answerIndex body = Some answerIndex ->
  let user := fst (getUser fid d) in
  let d1 := snd (getUser fid d) in
  apiAnswer questions zone now body d =
  if strictEq (lastPlayed user) (getTodayString now)
  then (json (AlreadyPlayed user (objGet (answers user) (getTodayString now)))
          400, d1)
  else
    match getTodaysQuestion questions zone now with
    | None => (throwTypeError, d1)
    | Some q =>
        let isCorrect := answerIndex =? Question.correct q in
        let user' :=
          scoredRecord user (Body.username body) (getTodayString now)
            (getYesterdayString zone now) isCorrect in
        (json (Scored isCorrect (Question.correct q) user' (Question.funFact q)) 200,
         Some (mkUsersDB (objSet (stored d1) (String_ fid) user')))
    end.
Proof.
  intros Hfid Hnz Hai user d1. unfold apiAnswer. rewrite Hfid, Hai.
  destruct (Z.eqb_spec fid 0) as [|_]; [contradiction|].
  unfold bind at 1.
  pose proof (getUser_stored fid d) as Hst. fold user d1 in Hst.
  destruct (getUser fid d) as [u dd] eqn:Hget. cbn in user, d1, Hst.
  subst user d1.
  destruct (strictEq (lastPlayed u) (getTodayString now)); [reflexivity|].
  destruct (getTodaysQuestion questions zone now) as [q|]; [|reflexivity].
  unfold bind. rewrite (updateUser_run _ _ _ _ Hst). reflexivity.
Qed.


Lemma strictEq_true (a : option string) (b : string) :
  strictEq a b = true <-> a = Some b.
Proof.
  destruct a as [x|]; cbn; [|split; discriminate].
  rewrite String.eqb_eq. split; congruence.
Qed.

Lemma strictEq_false (a : option string) (b : string) :
  strictEq a b = false <-> a <> Some b.
Proof.
  rewrite <- strictEq_true. destruct (strictEq a b); split; congruence.
Qed.

(** A submission by a user who has not played today is scored, and the
    record it answers with is the one it stored. *)
Lemma apiAnswer_scored (body : Body.t) (fid answerIndex : Z) (d : Disk)
    (q : Question.t) :
  Body.fid body = Some fid -> fid <> 0 ->
  Body.answerIndex body = Some answerIndex ->
  lastPlayed (fst (getUser fid d)) <> Some (getTodayString now) ->
  getTodaysQuestion questions zone now = Some q ->
  let isCorrect := answerIndex =? Question.correct q in
  let user' :=
    scoredRecord (fst (getUser fid d)) (Body.username body) (getTodayString now)
      (getYesterdayString zone now) isCorrect in
  exists d',
    apiAnswer questions zone now body d =
    (json (Scored isCorrect (Question.correct q) user' (Question.funFact q)) 200, d')
    /\ lookupUser d' (String_ fid) = Some user'
    /\ forall key, key <> String_ fid -> lookupUser d' key = lookupUser d key.
Proof.
  intros Hfid Hnz Hai Hplayed Hq isCorrect user'.
  rewrite (apiAnswer_run body fid answerIndex d Hfid Hnz Hai).
  apply strictEq_false in Hplayed. cbv zeta. rewrite Hplayed, Hq.
  eexists. split; [reflexivity|]. split.
  - unfold lookupUser, stored. cbn. apply objGet_objSet_same.
  - intros key Hkey. unfold lookupUser at 1, stored at 1. cbn.
    rewrite objGet_objSet_other by congruence.
    now apply getUser_other.
Qed.

(** X25. The streak rule of the handler, in terms of the key that
    [getYesterdayString] returns for the request: a correct answer by a
    user whose last played day is that key and whose last answer was
    correct adds one to the streak; any other correct answer makes it 1; a
    wrong answer makes it 0.  [user] is the record loaded or created at the
    start of the request. *)
Theorem streak_rule (body : Body.t) (fid answerIndex : Z) (d : Disk)
    (q : Question.t) :
  Body.fid body = Some fid -> fid <> 0 ->
  Body.answerIndex body = Some answerIndex ->
  lastPlayed (fst (getUser fid d)) <> Some (getTodayString now) ->
  getTodaysQuestion questions zone now = Some q ->
  let user := fst (getUser fid d) in
  exists user' d',
    apiAnswer questions zone now body d =
    (json (Scored (answerIndex =? Question.correct q) (Question.correct q)
             user' (Question.funFact q)) 200, d')
    /\ lookupUser d' (String_ fid) = Some user'
    /\ (answerIndex = Question.correct q ->
        lastPlayed user = Some (getYesterdayString zone now) ->
        lastCorrect user = true ->
        currentStreak user' = currentStreak user + 1)
    /\ (answerIndex = Question.correct q ->
        lastPlayed user <> Some (getYesterdayString zone now)
        \/ lastCorrect user = false ->
        currentStreak user' = 1)
    /\ (answerIndex <> Question.correct q -> currentStreak user' = 0).
Proof.
  intros Hfid Hnz Hai Hplayed Hq user.
  destruct (apiAnswer_scored body fid answerIndex d q Hfid Hnz Hai Hplayed Hq)
    as [d' [Hrun [Hlook _]]].
  eexists; exists d'. split; [exact Hrun|]. split; [exact Hlook|].
  fold user. cbn [scoredRecord currentStreak].
  repeat split.
  - intros Hc Hy Hl. apply Z.eqb_eq in Hc. apply strictEq_true in Hy.
    now rewrite Hc, Hy, Hl.
  - intros Hc Hno. apply Z.eqb_eq in Hc. rewrite Hc.
    destruct Hno as [Hy|Hl].
    + apply strictEq_false in Hy. now rewrite Hy.
    + rewrite Hl. now rewrite andb_false_r.
  - intros Hc. apply Z.eqb_neq in Hc. now rewrite Hc.
Qed.

(** C2. A submission by a user whose stored record was last played today is
    answered with the already-played error, carrying that record and the
    answer stored for today, and the users file is left as it was. *)
Theorem already_played_rejected (body : Body.t) (fid answerIndex : Z)
    (d : Disk) (user : UserData) :
  Body.fid body = Some fid -> fid <> 0 ->
  Body.answerIndex body = Some answerIndex ->
  lookupUser d (String_ fid) = Some user ->
  lastPlayed user = Some (getTodayString now) ->
  apiAnswer questions zone now body d =
  (json (AlreadyPlayed user (objGet (answers user) (getTodayString now))) 400, d).
Proof.
  intros Hfid Hnz Hai Hlook Hplayed.
  rewrite (apiAnswer_run body fid answerIndex d Hfid Hnz Hai).
  rewrite (getUser_existing _ _ _ Hlook). cbn [fst snd].
  apply strictEq_true in Hplayed. now rewrite Hplayed.
Qed.

(** C9. A body whose [fid] is 0 is answered with the missing-fields error
    whatever else it holds, and the users file is left as it was: the
    presence test [!fid] takes the number 0 for an absent field. *)
Theorem fid_zero_rejected (username : option string) (answerIndex : option Z)
    (d : Disk) :
  apiAnswer questions zone now (Body.mk (Some 0) username answerIndex) d =
  (json MissingFields 400, d).
Proof.
  unfold apiAnswer. cbn. destruct answerIndex; reflexivity.
Qed.


(** C4, as the code has it.  An answer index outside the options of today's
    question is not rejected: for a user who has not played today it is
    scored as a wrong answer and stored as one. *)
Theorem out_of_range_scored_wrong (body : Body.t) (fid answerIndex : Z)
    (d : Disk) (q : Question.t) :
  Body.fid body = Some fid -> fid <> 0 ->
  Body.answerIndex body = Some answerIndex ->
  lastPlayed (fst (getUser fid d)) <> Some (getTodayString now) ->
  getTodaysQuestion questions zone now = Some q ->
  wellFormedQuestion q ->
  outOfRange q answerIndex ->
  let user := fst (getUser fid d) in
  exists user' d',
    apiAnswer questions zone now body d =
    (json (Scored false (Question.correct q) user' (Question.funFact q)) 200, d')
    /\ lookupUser d' (String_ fid) = Some user'
    /\ currentStreak user' = 0
    /\ lastCorrect user' = false
    /\ lastPlayed user' = Some (getTodayString now)
    /\ totalPlayed user' = totalPlayed user + 1
    /\ totalCorrect user' = totalCorrect user
    /\ objGet (answers user') (getTodayString now) =
       Some (Answer.mk false (getTodayString now)).
Proof.
  intros Hfid Hnz Hai Hplayed Hq Hwf Hout user.
  destruct (apiAnswer_scored body fid answerIndex d q Hfid Hnz Hai Hplayed Hq)
    as [d' [Hrun [Hlook _]]].
  assert (Hwrong : (answerIndex =? Question.correct q) = false).
  { apply Z.eqb_neq. unfold wellFormedQuestion, outOfRange in *. lia. }
  rewrite Hwrong in Hrun, Hlook.
  eexists; exists d'. split; [exact Hrun|]. split; [exact Hlook|].
  fold user. cbn. rewrite objGet_objSet_same.
  repeat split; lia.
Qed.

Lemma recordOk_newUser (fid : Z) (recent : option string) :
  recordOk recent (newUser fid).
Proof. unfold recordOk. cbn. repeat split; lia. Qed.

Lemma getUser_storeOk (fid : Z) (log : ScoredLog) (d : Disk) :
  storeOk log d -> storeOk log (snd (getUser fid d)).
Proof.
  intros Hok key u Hu.
  destruct (String.eqb_spec key (String_ fid)) as [->|Hne].
  - destruct (lookupUser d (String_ fid)) as [u0|] eqn:H.
    + rewrite (getUser_existing _ _ _ H) in Hu. cbn in Hu. now apply Hok.
    + rewrite getUser_stored, (getUser_fresh _ _ H) in Hu. cbn in Hu.
      injection Hu as <-. apply recordOk_newUser.
  - rewrite getUser_other in Hu by assumption. now apply Hok.
Qed.

Lemma recordOk_scoredRecord (user : UserData) (name recent : option string)
    (today yesterday : string) (isCorrect : bool) :
  recordOk recent user ->
  recordOk (Some today) (scoredRecord user name today yesterday isCorrect).
Proof.
  intros [Hlong [Htot _]]. unfold recordOk. cbn.
  split; [lia|]. split; [destruct isCorrect; lia|].
  intros Hpos. split.
  - destruct isCorrect; [reflexivity | lia].
  - exists today. split; reflexivity.
Qed.

(** C3. A freshly created record satisfies the record invariant (longest
    streak at least the current one, no more correct answers than answers,
    and a positive current streak only with a correct last answer on the
    most recent scored day), and every submission keeps it for every stored
    record. *)
Theorem invariant_preserved :
  (forall fid recent, recordOk recent (newUser fid)) /\
  (forall (body : Body.t) (log : ScoredLog) (d : Disk),
     storeOk log d ->
     let r := apiAnswer questions zone now body d in
     storeOk (logAfter body (getTodayString now) (fst r) log) (snd r)).
Proof.
  split; [exact recordOk_newUser|].
  intros body log d Hok r. subst r.
  destruct (Body.fid body) as [fid|] eqn:Hfid;
    [|unfold apiAnswer; rewrite Hfid; exact Hok].
  destruct (Body.answerIndex body) as [answerIndex|] eqn:Hai;
    [|unfold apiAnswer; rewrite Hfid, Hai; exact Hok].
  destruct (Z.eq_dec fid 0) as [->|Hnz];
    [unfold apiAnswer; rewrite Hfid, Hai; exact Hok|].
  rewrite (apiAnswer_run body fid answerIndex d Hfid Hnz Hai). cbv zeta.
  pose proof (getUser_storeOk fid log d Hok) as Hok1.
  pose proof (getUser_stored fid d) as Hst.
  destruct (getUser fid d) as [user d1]. cbn [fst snd] in *.
  destruct (strictEq (lastPlayed user) (getTodayString now)); [exact Hok1|].
  destruct (getTodaysQuestion questions zone now) as [q|]; [|exact Hok1].
  unfold logAfter. cbn [fst snd json]. rewrite Hfid.
  intros key u. unfold lookupUser at 1, stored at 1. cbn.
  rewrite objGet_objSet.
  destruct (String.eqb (String_ fid) key).
  - intros [= <-]. eapply recordOk_scoredRecord. apply (Hok1 _ _ Hst).
  - apply Hok1.
Qed.

End Submit.

(** *** The claims at sample requests *)

Lemma streak_rule_witness :
  let body := Body.mk (Some 42) None (Some 3) in
  exists user' d',
    apiAnswer Sample.questions UTCZone Sample.july2 body Sample.aliceOnly =
    (json (Scored true 3 user' "F3") 200, d')
    /\ lookupUser d' "42" = Some user'
    /\ (3 = 3 -> Some "2024-07-01" = Some "2024-07-01" -> true = true ->
        currentStreak user' = 3 + 1)
    /\ (3 = 3 -> Some "2024-07-01" <> Some "2024-07-01" \/ true = false ->
        currentStreak user' = 1)
    /\ (3 <> 3 -> currentStreak user' = 0).
Proof.
  exact (streak_rule Sample.questions UTCZone Sample.july2
           (Body.mk (Some 42) None (Some 3)) 42 3 Sample.aliceOnly
           (Question.mk 3 "Q3" ["a"; "b"; "c"; "d"] 3 "Protocols" "F3")
           eq_refl ltac:(discriminate) eq_refl ltac:(vm_compute; discriminate)
           eq_refl).
Defined.

(** C1, where the code misses it.  On a host in New York a new user
    answers correctly on 2 November 2024 (streak 1), sends nothing on
    3 November, and answers correctly at 2024-11-04T00:30Z.  The clocks
    went back on 3 November, so one local day before that instant lies on
    2 November in UTC: [getYesterdayString] returns 2024-11-02, the day the
    user last played, and the streak becomes 2, not 1. *)
Theorem streak_continues_after_missed_day :
  let first := apiAnswer Sample.questions Sample.newYork2024 Sample.november2
                 (Body.mk (Some 5) None (Some 2)) None in
  let second := apiAnswer Sample.questions Sample.newYork2024 Sample.november4
                  (Body.mk (Some 5) None (Some 0)) (snd first) in
  getTodayString Sample.november2 = "2024-11-02"
  /\ getTodayString Sample.november4 = "2024-11-04"
  /\ Day Sample.november4 = Day Sample.november2 + 2
  /\ getYesterdayString Sample.newYork2024 Sample.november4 = "2024-11-02"
  /\ (exists u1, fst first = json (Scored true 2 u1 "F1") 200
                 /\ currentStreak u1 = 1
                 /\ lastPlayed u1 = Some "2024-11-02")
  /\ (exists u2, fst second = json (Scored true 0 u2 "F2") 200
                 /\ lookupUser (snd second) "5" = Some u2
                 /\ currentStreak u2 = 2).
Proof.
  vm_compute. repeat split.
  - eexists. repeat split.
  - eexists. repeat split.
Qed.

Lemma already_played_rejected_witness :
  apiAnswer Sample.questions UTCZone Sample.july1
    (Body.mk (Some 42) None (Some 1)) Sample.aliceOnly =
  (json (AlreadyPlayed Sample.alice
           (Some (Answer.mk true "2024-07-01"))) 400, Sample.aliceOnly).
Proof.
  exact (already_played_rejected Sample.questions UTCZone Sample.july1
           (Body.mk (Some 42) None (Some 1)) 42 1 Sample.aliceOnly Sample.alice
           eq_refl ltac:(discriminate) eq_refl eq_refl eq_refl).
Defined.

(** C4, as the spec has it, fails: on 2024-07-02 the question has four
    options, and answer index 7 is scored (status 200) and stored. *)
Lemma out_of_range_counterexample :
  let body := Body.mk (Some 42) None (Some 7) in
  let r := apiAnswer Sample.questions UTCZone Sample.july2 body Sample.aliceOnly in
  (exists q, getTodaysQuestion Sample.questions UTCZone Sample.july2 = Some q
             /\ outOfRange q 7)
  /\ snd (fst r) = 200
  /\ lookupUser (snd r) "42" <> lookupUser Sample.aliceOnly "42"
  /\ (exists u, lookupUser (snd r) "42" = Some u
                /\ totalPlayed u = 10
                /\ objGet (answers u) "2024-07-02" =
                   Some (Answer.mk false "2024-07-02")).
Proof.
  vm_compute. split.
  - eexists. split; [reflexivity|]. right. discriminate.
  - split; [reflexivity|]. split; [discriminate|].
    eexists. repeat split.
Qed.

Lemma out_of_range_scored_wrong_witness :
  exists user' d',
    apiAnswer Sample.questions UTCZone Sample.july2
      (Body.mk (Some 42) None (Some 7)) Sample.aliceOnly =
    (json (Scored false 3 user' "F3") 200, d')
    /\ lookupUser d' "42" = Some user'
    /\ currentStreak user' = 0
    /\ lastCorrect user' = false
    /\ lastPlayed user' = Some "2024-07-02"
    /\ totalPlayed user' = 9 + 1
    /\ totalCorrect user' = 7
    /\ objGet (answers user') "2024-07-02" = Some (Answer.mk false "2024-07-02").
Proof.
  exact (out_of_range_scored_wrong Sample.questions UTCZone Sample.july2
           (Body.mk (Some 42) None (Some 7)) 42 7 Sample.aliceOnly
           (Question.mk 3 "Q3" ["a"; "b"; "c"; "d"] 3 "Protocols" "F3")
           eq_refl ltac:(discriminate) eq_refl ltac:(vm_compute; discriminate)
           eq_refl ltac:(unfold wellFormedQuestion; cbn; lia)
           ltac:(unfold outOfRange; cbn; lia)).
Defined.

Lemma sample_storeOk : storeOk [("42", "2024-07-01")] Sample.aliceOnly.
Proof.
  intros key u H. unfold lookupUser, stored, Sample.aliceOnly in H.
  cbn [loadUsers fst users objGet] in H.
  destruct (String.eqb_spec "42" key) as [<-|]; [|discriminate].
  injection H as <-. unfold recordOk. cbn.
  split; [lia|]. split; [lia|]. intros _. split; [reflexivity|].
  exists "2024-07-01". split; reflexivity.
Qed.

Lemma invariant_preserved_witness :
  storeOk [("42", "2024-07-02"); ("42", "2024-07-01")]
    (snd (apiAnswer Sample.questions UTCZone Sample.july2
            (Body.mk (Some 42) None (Some 3)) Sample.aliceOnly)).
Proof.
  exact (proj2 (invariant_preserved Sample.questions UTCZone Sample.july2)
           (Body.mk (Some 42) None (Some 3)) [("42", "2024-07-01")]
           Sample.aliceOnly sample_storeOk).
Defined.

End AnswerFacts.

(* ================================================================= *)
(** ** The question of the day and its number *)

Module DateFacts.
Import JS Server Props JSFacts.

(** The seed of a date of the common era is not negative. *)
Lemma seed_nonneg (zone : TimeZone) (now : Z) :
  0 <= getFullYear zone now -> 0 <= seed zone now.
Proof.
  intros Hy. unfold seed, getMonth, getDate.
  pose proof (MonthFromTime_range (LocalTime zone now)).
  pose proof (DateFromTime_range (LocalTime zone now)).
  lia.
Qed.

(** C5. With a catalog that is not empty, the question of a date of the
    common era is the catalog entry at index
    (year * 10000 + month * 100 + day) mod (catalog size); and the question
    depends on the clock reading through its local year, month and day
    only. *)
Theorem question_of_the_day (questions : list Question.t) (zone : TimeZone)
    (now : Z) :
  questions <> [] ->
  0 <= getFullYear zone now ->
  let year := getFullYear zone now in
  let month := getMonth zone now + 1 in
  let day := getDate zone now in
  let index := (year * 10000 + month * 100 + day) mod Z.of_nat (List.length questions) in
  (exists q, getTodaysQuestion questions zone now = Some q
             /\ nth_error questions (Z.to_nat index) = Some q)
  /\ (forall zone' now',
        getFullYear zone' now' = year ->
        getMonth zone' now' + 1 = month ->
        getDate zone' now' = day ->
        getTodaysQuestion questions zone' now' = getTodaysQuestion questions zone now).
Proof.
  intros Hne Hy year month day index. split.
  - pose proof (seed_nonneg zone now Hy) as Hseed.
    assert (Hlen : 0 < Z.of_nat (List.length questions))
      by (destruct questions; [contradiction | cbn; lia]).
    unfold getTodaysQuestion, rem.
    destruct (Z.eqb_spec (Z.of_nat (List.length questions)) 0); [lia|].
    rewrite Z.rem_mod_nonneg by lia.
    fold year month day in Hseed. unfold seed. fold year month day index.
    assert (Hidx : 0 <= index < Z.of_nat (List.length questions))
      by (apply Z.mod_pos_bound; lia).
    unfold arrayGet. destruct (Z.ltb_spec index 0); [lia|].
    destruct (nth_error questions (Z.to_nat index)) as [q|] eqn:Hnth.
    + exists q. split; reflexivity.
    + apply nth_error_None in Hnth. lia.
  - intros zone' now' Hy' Hm' Hd'.
    unfold getTodaysQuestion, seed. subst year month day.
    now rewrite Hy', Hm', Hd'.
Qed.

Lemma question_of_the_day_witness :
  (exists q, getTodaysQuestion Sample.questions UTCZone Sample.july1 = Some q
             /\ nth_error Sample.questions (Z.to_nat (20240701 mod 3)) = Some q)
  /\ (forall zone' now',
        getFullYear zone' now' = 2024 ->
        getMonth zone' now' + 1 = 7 ->
        getDate zone' now' = 1 ->
        getTodaysQuestion Sample.questions zone' now' =
        getTodaysQuestion Sample.questions UTCZone Sample.july1).
Proof.
  exact (question_of_the_day Sample.questions UTCZone Sample.july1
           ltac:(discriminate) ltac:(vm_compute; discriminate)).
Defined.

(** The local fields of a time value give back its day. *)
Lemma MakeDay_fields (t dt : Z) :
  MakeDay (YearFromTime t) (MonthFromTime t) dt = Day t - DateFromTime t + dt.
Proof.
  pose proof (MonthFromTime_range t) as Hm.
  unfold MakeDay, DateFromTime, DayWithinYear, InLeapYear.
  rewrite (Z.div_small (MonthFromTime t) 12), (Z.mod_small (MonthFromTime t) 12)
    by lia.
  rewrite Z.add_0_r. lia.
Qed.

(** On a host whose zone has one fixed offset, yesterday's key is the key
    of the instant 24 hours earlier. *)
Lemma getYesterdayString_fixedZone (off now : Z) :
  getYesterdayString (fixedZone off) now = getTodayString (now - msPerDay).
Proof.
  unfold getYesterdayString, getTodayString, setDate, getDate.
  rewrite MakeDay_fields. f_equal. f_equal.
  unfold UTC, LocalTime, MakeDate, TimeWithinDay, Day, msPerDay. cbn.
  generalize (DateFromTime (now + off)). intros dt.
  Z.to_euclidean_division_equations; lia.
Qed.

(** Where the offset changes, it need not be: in New York on the evening of
    3 November 2024 today's key is 2024-11-04 and yesterday's key is
    2024-11-02. *)
Lemma getYesterdayString_clock_change :
  getTodayString Sample.november4 = "2024-11-04"
  /\ getYesterdayString Sample.newYork2024 Sample.november4 = "2024-11-02".
Proof. vm_compute. split; reflexivity. Qed.

(** On a host whose zone has one fixed offset, and from the year 100 on,
    the question number is the day of the year, and it grows with the day
    inside a year. *)
Lemma getQuestionNumber_fixedZone (off now : Z) :
  99 < getFullYear (fixedZone off) now ->
  getQuestionNumber (fixedZone off) now = dayOfYear (fixedZone off) now.
Proof.
  intros Hy.
  unfold getQuestionNumber, dayOfYear, newDate3, DayWithinYear, getTime.
  unfold getFullYear in *. set (tl := LocalTime (fixedZone off) now) in *.
  destruct (Z.leb_spec 0 (YearFromTime tl)), (Z.leb_spec (YearFromTime tl) 99);
    cbn [andb]; try lia.
  unfold UTC, MakeDate, MakeDay, MakeTime, Day, msPerDay.
  change (0 / 12) with 0. change (0 mod 12) with 0.
  replace (YearFromTime tl + 0) with (YearFromTime tl) by lia.
  replace (DaysBeforeMonth (isLeapYear (YearFromTime tl)) 0) with 0
    by (now destruct (isLeapYear (YearFromTime tl))).
  assert (Htl : now = tl - off) by (unfold tl, LocalTime; cbn; lia).
  cbn [offsetAtLocal fixedZone]. rewrite Htl. clearbody tl.
  generalize (DayFromYear (YearFromTime tl)). intros dy.
  Z.to_euclidean_division_equations; lia.
Qed.

Lemma getQuestionNumber_monotone (off now now' : Z) :
  99 < getFullYear (fixedZone off) now ->
  getFullYear (fixedZone off) now' = getFullYear (fixedZone off) now ->
  Day (LocalTime (fixedZone off) now) < Day (LocalTime (fixedZone off) now') ->
  getQuestionNumber (fixedZone off) now < getQuestionNumber (fixedZone off) now'.
Proof.
  intros Hy Hsame Hlt.
  rewrite !getQuestionNumber_fixedZone by lia.
  unfold dayOfYear, DayWithinYear. unfold getFullYear in Hsame.
  rewrite Hsame. lia.
Qed.

(** C8, where the code misses it.  In New York, at 00:30 on 1 July 2024
    (the 183rd day of that year), the question number is 182: the start of
    the year lies in winter time, so during the first hour of a summer day
    fewer than 183 whole days have passed since it. *)
Theorem question_number_summer_time :
  getFullYear Sample.newYork2024 Sample.july1 = 2024
  /\ getMonth Sample.newYork2024 Sample.july1 + 1 = 7
  /\ getDate Sample.newYork2024 Sample.july1 = 1
  /\ dayOfYear Sample.newYork2024 Sample.july1 = 183
  /\ getQuestionNumber Sample.newYork2024 Sample.july1 = 182.
Proof. vm_compute. repeat split. Qed.

End DateFacts.

(* ================================================================= *)
(** ** The leaderboard *)

Module LeaderboardFacts.
Import JS Server Props JSFacts StoreFacts.

Lemma compareUsers_rank (a b : UserData) :
  comesBefore compareUsers a b <-> userRankedBefore a b.
Proof.
  unfold comesBefore, compareUsers, orElse, userRankedBefore, rankedBefore. cbn.
  destruct (Z.eqb_spec (longestStreak b - longestStreak a) 0); lia.
Qed.

Lemma compareUsers_total (a b : UserData) :
  comesBefore compareUsers a b \/ comesBefore compareUsers b a.
Proof.
  rewrite !compareUsers_rank. unfold userRankedBefore, rankedBefore. cbn. lia.
Qed.

Lemma compareUsers_trans (a b c : UserData) :
  comesBefore compareUsers a b -> comesBefore compareUsers b c ->
  comesBefore compareUsers a c.
Proof.
  rewrite !compareUsers_rank. unfold userRankedBefore, rankedBefore. cbn. lia.
Qed.

Lemma StronglySorted_impl {A : Type} (R S : A -> A -> Prop) (l : list A) :
  (forall x y, R x y -> S x y) -> StronglySorted R l -> StronglySorted S l.
Proof.
  intros HRS. induction 1 as [|x l Hl IH Hx]; constructor; auto.
  eapply Forall_impl; [|exact Hx]. auto.
Qed.

(** The whole population in ranking order. *)
Lemma ranking_sorted (us : list UserData) :
  StronglySorted userRankedBefore (sort compareUsers us).
Proof.
  eapply StronglySorted_impl; [apply compareUsers_rank|].
  apply sort_sorted; [exact compareUsers_total | exact compareUsers_trans].
Qed.

Lemma getLeaderboard_run (limit : Z) (d : Disk) :
  getLeaderboard (Some limit) d =
  (map toEntry (slice (sort compareUsers (objValues (stored d))) 0 limit), d).
Proof.
  unfold getLeaderboard, bind, stored, loadUsers. destruct d; reflexivity.
Qed.

Lemma toEntry_fields (us : list UserData) :
  Forall2 (fun e u => entryFid e = fid u /\ entryUsername e = username u
                      /\ streak e = longestStreak u /\ total e = totalCorrect u)
    (map toEntry us) us.
Proof. induction us; cbn; constructor; auto. Qed.

(** C6. For a positive limit the leaderboard is the first [limit] users of
    the population sorted by longest streak, larger first, and among equal
    streaks by total of correct answers, larger first; each entry shows its
    user's longest streak and total of correct answers; it has at most
    [limit] entries.  Users with (5,10), (5,12), (3,20) come out as
    (5,12), (5,10), (3,20). *)
Theorem leaderboard_ranking (d : Disk) (limit : Z) :
  0 < limit ->
  let board := fst (getLeaderboard (Some limit) d) in
  StronglySorted rankedBefore board
  /\ (exists top rest,
        Permutation (top ++ rest)%list (objValues (stored d))
        /\ StronglySorted userRankedBefore (top ++ rest)%list
        /\ Forall2 (fun e u => entryFid e = fid u /\ entryUsername e = username u
                               /\ streak e = longestStreak u
                               /\ total e = totalCorrect u) board top)
  /\ Z.of_nat (List.length board) =
     Z.min limit (Z.of_nat (List.length (objValues (stored d))))
  /\ map (fun e => (streak e, total e))
       (fst (getLeaderboard (Some limit) Sample.threeUsers)) =
     firstn (Z.to_nat limit) [(5, 12); (5, 10); (3, 20)].
Proof.
  intros Hlimit board. subst board.
  rewrite !getLeaderboard_run. cbn [fst].
  rewrite !slice_from_0 by lia.
  set (ranked := sort compareUsers (objValues (stored d))).
  assert (Hsorted : StronglySorted userRankedBefore ranked)
    by apply ranking_sorted.
  assert (Hperm : Permutation ranked (objValues (stored d)))
    by apply sort_perm.
  split; [|split; [|split]].
  - apply StronglySorted_map. now apply StronglySorted_firstn.
  - exists (firstn (Z.to_nat limit) ranked), (skipn (Z.to_nat limit) ranked).
    rewrite firstn_skipn. repeat split; try assumption.
    apply toEntry_fields.
  - rewrite length_map, length_firstn, <- (Permutation_length Hperm). lia.
  - change (sort compareUsers (objValues (stored Sample.threeUsers)))
      with [Sample.player 2 5 12 12; Sample.player 1 5 10 12;
            Sample.player 3 3 20 25].
    destruct (Z.to_nat limit) as [|[|[|[|n]]]]; reflexivity.
Qed.

Lemma leaderboard_ranking_witness :
  let board := fst (getLeaderboard (Some 2) Sample.threeUsers) in
  StronglySorted rankedBefore board
  /\ (exists top rest,
        Permutation (top ++ rest)%list (objValues (stored Sample.threeUsers))
        /\ StronglySorted userRankedBefore (top ++ rest)%list
        /\ Forall2 (fun e u => entryFid e = fid u /\ entryUsername e = username u
                               /\ streak e = longestStreak u
                               /\ total e = totalCorrect u) board top)
  /\ Z.of_nat (List.length board) =
     Z.min 2 (Z.of_nat (List.length (objValues (stored Sample.threeUsers))))
  /\ map (fun e => (streak e, total e))
       (fst (getLeaderboard (Some 2) Sample.threeUsers)) =
     firstn (Z.to_nat 2) [(5, 12); (5, 10); (3, 20)].
Proof.
  exact (leaderboard_ranking Sample.threeUsers 2 ltac:(lia)).
Defined.

(** C7, as the spec has it, fails for a negative limit: with three users
    and limit -1 the leaderboard holds two entries. *)
Lemma negative_limit_counterexample :
  -1 <= 0
  /\ fst (getLeaderboard (Some (-1)) Sample.threeUsers) =
     [mkEntry 2 None 5 12; mkEntry 1 None 5 10]
  /\ fst (getLeaderboard (Some (-1)) Sample.threeUsers) <> [].
Proof. vm_compute. repeat split; discriminate. Qed.

(** C7, as the code has it.  The leaderboard is empty, and the users file
    untouched, when there is no user (for any limit, given or defaulted),
    when the limit is 0, and when the limit is negative and there are no
    more users than its magnitude. *)
Theorem leaderboard_empty (d : Disk) (limit : Z) :
  (forall l : option Z, stored d = [] -> getLeaderboard l d = ([], d))
  /\ getLeaderboard (Some 0) d = ([], d)
  /\ (limit < 0 ->
      Z.of_nat (List.length (objValues (stored d))) <= - limit ->
      getLeaderboard (Some limit) d = ([], d)).
Proof.
  split; [|split].
  - intros l Hempty. unfold stored in Hempty.
    unfold getLeaderboard, bind.
    destruct (loadUsers d) as [db d'] eqn:Hload. cbn in Hempty.
    assert (d' = d) as -> by (destruct d; cbn in Hload; congruence).
    rewrite Hempty. cbn. unfold slice. cbn.
    now rewrite firstn_nil.
  - rewrite getLeaderboard_run, slice_from_0 by lia. reflexivity.
  - intros Hneg Hcount. rewrite getLeaderboard_run, slice_to_negative by lia.
    rewrite (Permutation_length (sort_perm compareUsers _)).
    replace (Z.to_nat _) with 0%nat by lia. reflexivity.
Qed.

Lemma leaderboard_empty_witness :
  getLeaderboard None None = ([], None)
  /\ getLeaderboard (Some 0) Sample.threeUsers = ([], Sample.threeUsers)
  /\ getLeaderboard (Some (-3)) Sample.threeUsers = ([], Sample.threeUsers).
Proof.
  split; [|split].
  - exact (proj1 (leaderboard_empty None 0) None eq_refl).
  - exact (proj1 (proj2 (leaderboard_empty Sample.threeUsers 0))).
  - exact (proj2 (proj2 (leaderboard_empty Sample.threeUsers (-3)))
             ltac:(lia) ltac:(cbn; lia)).
Defined.

(** Without a limit that cuts it, the leaderboard lists every stored
    record. *)
Lemma getLeaderboard_lists (d : Disk) (limit : Z) (key : string) (u : UserData) :
  Z.of_nat (List.length (objValues (stored d))) <= limit ->
  lookupUser d key = Some u ->
  In (toEntry u) (fst (getLeaderboard (Some limit) d)).
Proof.
  intros Hlimit Hu. rewrite getLeaderboard_run. cbn [fst].
  pose proof (sort_perm compareUsers (objValues (stored d))) as Hperm.
  rewrite slice_from_0 by lia.
  rewrite firstn_all2 by (rewrite (Permutation_length Hperm); lia).
  apply in_map. apply (Permutation_in _ (Permutation_sym Hperm)).
  eapply objGet_In. exact Hu.
Qed.

Section Lookup.
Variable questions : list Question.t.
Variable zone : TimeZone.
Variable now : Z.

(** C10. Looking up an id that has no record stores a zeroed record for it
    and answers with that record.  The leaderboard ranks such a record as
    it ranks any other: when the limit does not cut the list it is on it
    with streak 0 and total 0, and it can take a place from a user who has
    played (a record created for id 3 takes the only place of a leaderboard
    of one from a user who has played and answered wrong). *)
Theorem lookup_creates_ranked_record (param : string) (fid : Z) (d : Disk) :
  parseInt param = Some fid ->
  lookupUser d (String_ fid) = None ->
  let r := apiUser questions zone now param d in
  fst r = json (UserInfo (newUser fid) false None
                  (getTodaysQuestion questions zone now)
                  (getQuestionNumber zone now)) 200
  /\ lookupUser (snd r) (String_ fid) = Some (newUser fid)
  /\ (forall key, key <> String_ fid -> lookupUser (snd r) key = lookupUser d key)
  /\ (currentStreak (newUser fid) = 0 /\ longestStreak (newUser fid) = 0
      /\ totalPlayed (newUser fid) = 0 /\ totalCorrect (newUser fid) = 0
      /\ answers (newUser fid) = [])
  /\ (forall limit,
        Z.of_nat (List.length (objValues (stored (snd r)))) <= limit ->
        In (mkEntry fid None 0 0) (fst (getLeaderboard (Some limit) (snd r))))
  /\ (lookupUser Sample.bobOnly "7" = Some Sample.bob
      /\ totalPlayed Sample.bob = 1
      /\ fst (getLeaderboard (Some 1)
                (snd (apiUser questions zone now "3" Sample.bobOnly))) =
         [mkEntry 3 None 0 0]).
Proof.
  intros Hparse Hnone r. subst r. unfold apiUser. rewrite Hparse.
  unfold bind. pose proof (getUser_stored fid d) as Hst.
  pose proof (getUser_other fid d) as Hother.
  rewrite (getUser_fresh _ _ Hnone) in *. cbn [fst snd] in *.
  split; [reflexivity|]. split; [exact Hst|]. split; [exact Hother|].
  split; [repeat split|]. split.
  - intros limit Hlimit.
    apply (getLeaderboard_lists _ limit (String_ fid) (newUser fid) Hlimit Hst).
  - repeat split.
Qed.

End Lookup.

Lemma lookup_creates_ranked_record_witness :
  let r := apiUser Sample.questions UTCZone Sample.july2 "7" Sample.aliceOnly in
  lookupUser (snd r) "7" = Some (newUser 7)
  /\ In (mkEntry 7 None 0 0) (fst (getLeaderboard (Some 20) (snd r))).
Proof.
  destruct (lookup_creates_ranked_record Sample.questions UTCZone Sample.july2
              "7" 7 Sample.aliceOnly eq_refl eq_refl)
    as [_ [Hstored [_ [_ [Hboard _]]]]].
  split; [exact Hstored|]. apply Hboard. cbn. lia.
Defined.

End LeaderboardFacts.

(* ================================================================= *)
(** ** More about the user store *)

Module StoreExtra.
Import JS Server Props Derived JSFacts StoreFacts.

Lemma loadUsers_disk (d : Disk) : snd (loadUsers d) = d.
Proof. destruct d; reflexivity. Qed.

(** [updateUser] writes the record it read, merged with [data], into the
    file as it was before the read. *)
Lemma updateUser_general (fid : Z) (data : Partial.t) (d : Disk) :
  updateUser fid data d =
  (spread (fst (getUser fid d)) data,
   Some (mkUsersDB (objSet (stored d) (String_ fid)
                      (spread (fst (getUser fid d)) data)))).
Proof.
  unfold updateUser, bind at 1.
  pose proof (loadUsers_disk d) as Hd. unfold stored.
  destruct (loadUsers d) as [db d0]. cbn in Hd. subst d0.
  unfold bind at 1. destruct (getUser fid d) as [u d1]. reflexivity.
Qed.

(** [getUser] changes no record that exists. *)
Lemma getUser_keeps (fid : Z) (d : Disk) (key : string) (u : UserData) :
  lookupUser d key = Some u -> lookupUser (snd (getUser fid d)) key = Some u.
Proof.
  intros Hu. destruct (String.eqb_spec key (String_ fid)) as [->|Hne].
  - now rewrite (getUser_existing _ _ _ Hu).
  - now rewrite getUser_other.
Qed.

(** X1. [getUser] is a get-or-create: it changes no record that exists,
    and calling it again returns the same record and leaves the file as the
    first call left it. *)
Theorem getUser_idempotent (fid : Z) (d : Disk) :
  (forall key u, lookupUser d key = Some u ->
                 lookupUser (snd (getUser fid d)) key = Some u)
  /\ getUser fid (snd (getUser fid d)) =
     (fst (getUser fid d), snd (getUser fid d)).
Proof.
  split.
  - intros key u. apply getUser_keeps.
  - apply getUser_existing, getUser_stored.
Qed.

Lemma getUser_idempotent_witness :
  lookupUser (snd (getUser 7 Sample.aliceOnly)) "42" = Some Sample.alice
  /\ getUser 7 (snd (getUser 7 Sample.aliceOnly)) =
     (newUser 7, snd (getUser 7 Sample.aliceOnly)).
Proof.
  split.
  - exact (proj1 (getUser_idempotent 7 Sample.aliceOnly) "42" Sample.alice
             eq_refl).
  - exact (proj2 (getUser_idempotent 7 Sample.aliceOnly)).
Defined.

(** X2. [updateUser] stores the merge of the user's record (a new one when
    there was none) with [data] under the user's key, returns it, leaves
    every other record as it was, and a later [getUser] reads it back
    without writing. *)
Theorem updateUser_round_trip (fid : Z) (data : Partial.t) (d : Disk) :
  let r := updateUser fid data d in
  fst r = spread (match lookupUser d (String_ fid) with
                  | Some u => u
                  | None => newUser fid
                  end) data
  /\ lookupUser (snd r) (String_ fid) = Some (fst r)
  /\ (forall key, key <> String_ fid -> lookupUser (snd r) key = lookupUser d key)
  /\ getUser fid (snd r) = r.
Proof.
  intros r. subst r. rewrite updateUser_general. cbn [fst snd].
  assert (Hlook : lookupUser
            (Some (mkUsersDB (objSet (stored d) (String_ fid)
                                (spread (fst (getUser fid d)) data))))
            (String_ fid) = Some (spread (fst (getUser fid d)) data))
    by (unfold lookupUser, stored; cbn; apply objGet_objSet_same).
  split; [|split; [exact Hlook|split]].
  - destruct (lookupUser d (String_ fid)) as [u|] eqn:H.
    + now rewrite (getUser_existing _ _ _ H).
    + now rewrite (getUser_fresh _ _ H).
  - intros key Hkey. unfold lookupUser at 1, stored at 1. cbn.
    apply objGet_objSet_other. congruence.
  - now apply getUser_existing.
Qed.

Lemma updateUser_round_trip_witness :
  let data := Partial.mk None None (Some 9) None None None None None None in
  let r := updateUser 42 data Sample.aliceOnly in
  lookupUser (snd r) "7" = lookupUser Sample.aliceOnly "7".
Proof.
  exact (proj1 (proj2 (proj2 (updateUser_round_trip 42
           (Partial.mk None None (Some 9) None None None None None None)
           Sample.aliceOnly))) "7" ltac:(discriminate)).
Defined.

End StoreExtra.

(* ================================================================= *)
(** ** More about the answer endpoint *)

Module AnswerExtra.
Import JS Server Props Derived JSFacts StoreFacts AnswerFacts.

(** Every request either lacks a field, and then nothing happens, or names
    a user and an answer. *)
Lemma apiAnswer_cases (questions : list Question.t) (zone : TimeZone)
    (now : Z) (body : Body.t) (d : Disk) :
  apiAnswer questions zone now body d = (json MissingFields 400, d)
  \/ exists fid answerIndex,
       Body.fid body = Some fid /\ fid <> 0
       /\ Body.answerIndex body = Some answerIndex.
Proof.
  unfold apiAnswer.
  destruct (Body.fid body) as [fid|]; [|now left].
  destruct (Body.answerIndex body) as [answerIndex|]; [|now left].
  destruct (Z.eqb_spec fid 0); [now left|].
  right. now exists fid, answerIndex.
Qed.

Lemma lookupUser_objSet (d : Disk) (key : string) (u : UserData) (key' : string) :
  lookupUser (Some (mkUsersDB (objSet (stored d) key u))) key' =
  if String.eqb key key' then Some u else lookupUser d key'.
Proof. unfold lookupUser at 1, stored at 1. cbn. apply objGet_objSet. Qed.

(** A property of records that new records have and scoring keeps holds of
    every stored record after a submission, if it did before. *)
Lemma apiAnswer_allStored (P : UserData -> Prop)
    (questions : list Question.t) (zone : TimeZone) (now : Z) :
  (forall fid, P (newUser fid)) ->
  (forall u name isCorrect,
     P u ->
     P (scoredRecord u name (getTodayString now) (getYesterdayString zone now)
          isCorrect)) ->
  forall body d,
    allStored P d -> allStored P (snd (apiAnswer questions zone now body d)).
Proof.
  intros Hnew Hscore body d Hd.
  destruct (apiAnswer_cases questions zone now body d)
    as [Hmiss|[fid [ai [Hfid [Hnz Hai]]]]]; [now rewrite Hmiss|].
  rewrite (apiAnswer_run questions zone now body fid ai d Hfid Hnz Hai).
  cbv zeta.
  assert (Hd1 : allStored P (snd (getUser fid d))).
  { intros key u Hu.
    destruct (String.eqb_spec key (String_ fid)) as [->|Hne].
    - rewrite getUser_stored in Hu. injection Hu as <-.
      destruct (lookupUser d (String_ fid)) as [u0|] eqn:H.
      + rewrite (getUser_existing _ _ _ H). cbn. now apply (Hd _ _ H).
      + rewrite (getUser_fresh _ _ H). cbn. apply Hnew.
    - rewrite getUser_other in Hu by assumption. now apply (Hd _ _ Hu). }
  pose proof (getUser_stored fid d) as Hst.
  destruct (getUser fid d) as [user d1]. cbn [fst snd] in *.
  destruct (strictEq (lastPlayed user) (getTodayString now)); [exact Hd1|].
  destruct (getTodaysQuestion questions zone now) as [q|]; [|exact Hd1].
  cbn [snd]. intros key u. rewrite lookupUser_objSet.
  destruct (String.eqb (String_ fid) key).
  - intros [= <-]. apply Hscore. apply (Hd1 _ _ Hst).
  - apply Hd1.
Qed.

Lemma apiUser_allStored (P : UserData -> Prop)
    (questions : list Question.t) (zone : TimeZone) (now : Z) :
  (forall fid, P (newUser fid)) ->
  forall param d,
    allStored P d -> allStored P (snd (apiUser questions zone now param d)).
Proof.
  intros Hnew param d Hd. unfold apiUser.
  destruct (parseInt param) as [fid|]; [|exact Hd].
  unfold bind.
  pose proof (getUser_stored fid d) as Hst.
  pose proof (getUser_other fid d) as Hother.
  destruct (lookupUser d (String_ fid)) as [u0|] eqn:H.
  - rewrite (getUser_existing _ _ _ H). exact Hd.
  - rewrite (getUser_fresh _ _ H) in *. cbn [fst snd ret] in *.
    intros key u Hu.
    destruct (String.eqb_spec key (String_ fid)) as [->|Hne].
    + rewrite Hst in Hu. injection Hu as <-. apply Hnew.
    + rewrite Hother in Hu by assumption. now apply (Hd _ _ Hu).
Qed.

Lemma length_objSet {V : Type} (o : Obj V) (k : string) (v : V) :
  (List.length (objSet o k v) <= S (List.length o))%nat.
Proof.
  unfold objSet. destruct (objGet o k).
  - clear. induction o as [|[k0 v0] o IH]; cbn; [lia|].
    destruct (String.eqb k0 k); cbn; lia.
  - destruct (arrayIndex k) as [n|].
    + clear. induction o as [|[k0 v0] o IH]; cbn; [lia|].
      destruct (arrayIndex k0) as [n0|]; [destruct (n0 <? n)|]; cbn; lia.
    + rewrite length_app. cbn. lia.
Qed.

Lemma countersOk_scoredRecord (u : UserData) (name : option string)
    (today yesterday : string) (isCorrect : bool) :
  countersOk u -> countersOk (scoredRecord u name today yesterday isCorrect).
Proof.
  unfold countersOk. cbn. intros H.
  pose proof (length_objSet (answers u) today (Answer.mk isCorrect today)).
  destruct isCorrect;
    [destruct (strictEq (lastPlayed u) yesterday && lastCorrect u)|];
    repeat split; lia.
Qed.

Lemma historyOk_scoredRecord (u : UserData) (name : option string)
    (today yesterday : string) (isCorrect : bool) :
  historyOk u -> historyOk (scoredRecord u name today yesterday isCorrect).
Proof.
  intros [Hdate _]. unfold historyOk. cbn. split.
  - intros day a. rewrite objGet_objSet.
    destruct (String.eqb_spec today day) as [<-|_].
    + now intros [= <-].
    + apply Hdate.
  - intros day [= <-]. apply objGet_objSet_same.
Qed.

(** X3. The counters of every stored record stay in order through every
    submission and every user lookup: 0 <= current streak <= longest streak
    <= correct answers <= answers played, and the history holds no more
    entries than answers were played.  A new record has them in order. *)
Theorem counters_kept (questions : list Question.t) (zone : TimeZone) (now : Z) :
  (forall fid, countersOk (newUser fid))
  /\ (forall body d,
        allStored countersOk d ->
        allStored countersOk (snd (apiAnswer questions zone now body d)))
  /\ (forall param d,
        allStored countersOk d ->
        allStored countersOk (snd (apiUser questions zone now param d))).
Proof.
  assert (Hnew : forall fid, countersOk (newUser fid))
    by (intros fid; unfold countersOk; cbn; lia).
  split; [exact Hnew|]. split.
  - apply apiAnswer_allStored; [exact Hnew|].
    intros u name isCorrect. apply countersOk_scoredRecord.
  - now apply apiUser_allStored.
Qed.

Lemma sample_countersOk : allStored countersOk Sample.aliceOnly.
Proof.
  intros key u H. unfold lookupUser, stored, Sample.aliceOnly in H.
  cbn [loadUsers fst users objGet] in H.
  destruct (String.eqb_spec "42" key); [|discriminate].
  injection H as <-. unfold countersOk. cbn. lia.
Qed.

Lemma counters_kept_witness :
  allStored countersOk
    (snd (apiAnswer Sample.questions UTCZone Sample.july2
            (Body.mk (Some 42) None (Some 3)) Sample.aliceOnly))
  /\ allStored countersOk
       (snd (apiUser Sample.questions UTCZone Sample.july2 "7" Sample.aliceOnly)).
Proof.
  split.
  - exact (proj1 (proj2 (counters_kept Sample.questions UTCZone Sample.july2))
             (Body.mk (Some 42) None (Some 3)) Sample.aliceOnly
             sample_countersOk).
  - exact (proj2 (proj2 (counters_kept Sample.questions UTCZone Sample.july2))
             "7" Sample.aliceOnly sample_countersOk).
Defined.

(** X4. The history of every stored record stays sound through every
    submission and every user lookup: each entry carries the day it is
    filed under, and the last played day has the entry that tells whether
    the last answer was correct.  So the already-played error always
    carries today's stored answer. *)
Theorem history_kept (questions : list Question.t) (zone : TimeZone) (now : Z) :
  (forall fid, historyOk (newUser fid))
  /\ (forall body d,
        allStored historyOk d ->
        allStored historyOk (snd (apiAnswer questions zone now body d)))
  /\ (forall param d,
        allStored historyOk d ->
        allStored historyOk (snd (apiUser questions zone now param d)))
  /\ (forall body d user todaysAnswer,
        allStored historyOk d ->
        fst (apiAnswer questions zone now body d) =
          json (AlreadyPlayed user todaysAnswer) 400 ->
        todaysAnswer = Some (Answer.mk (lastCorrect user) (getTodayString now))).
Proof.
  assert (Hnew : forall fid, historyOk (newUser fid))
    by (intros fid; unfold historyOk; cbn; split; [intros ? ? [=] | intros ? [=]]).
  split; [exact Hnew|]. split; [|split].
  - apply apiAnswer_allStored; [exact Hnew|].
    intros u name isCorrect. apply historyOk_scoredRecord.
  - now apply apiUser_allStored.
  - intros body d user todaysAnswer Hd Hresp.
    destruct (apiAnswer_cases questions zone now body d)
      as [Hmiss|[fid [ai [Hfid [Hnz Hai]]]]];
      [rewrite Hmiss in Hresp; discriminate|].
    rewrite (apiAnswer_run questions zone now body fid ai d Hfid Hnz Hai) in Hresp.
    cbv zeta in Hresp.
    assert (Hok : historyOk (fst (getUser fid d))).
    { destruct (lookupUser d (String_ fid)) as [u0|] eqn:H.
      - rewrite (getUser_existing _ _ _ H). cbn. now apply (Hd _ _ H).
      - rewrite (getUser_fresh _ _ H). cbn. apply Hnew. }
    destruct (strictEq (lastPlayed (fst (getUser fid d))) (getTodayString now))
      eqn:Hplayed.
    + cbn in Hresp. injection Hresp as <- <-.
      apply strictEq_true in Hplayed. now apply (proj2 Hok).
    + destruct (getTodaysQuestion questions zone now); cbn in Hresp;
        discriminate.
Qed.

Lemma sample_historyOk : allStored historyOk Sample.aliceOnly.
Proof.
  intros key u H. unfold lookupUser, stored, Sample.aliceOnly in H.
  cbn [loadUsers fst users objGet] in H.
  destruct (String.eqb_spec "42" key); [|discriminate].
  injection H as <-. unfold historyOk, Sample.alice.
  cbn [answers lastPlayed lastCorrect objGet]. split.
  - intros day a.
    destruct (String.eqb_spec "2024-07-01" day) as [<-|]; [|discriminate].
    now intros [= <-].
  - now intros day [= <-].
Qed.

Lemma history_kept_witness :
  allStored historyOk
    (snd (apiAnswer Sample.questions UTCZone Sample.july2
            (Body.mk (Some 42) None (Some 3)) Sample.aliceOnly))
  /\ allStored historyOk
       (snd (apiUser Sample.questions UTCZone Sample.july2 "7" Sample.aliceOnly))
  /\ Some (Answer.mk true "2024-07-01") =
     Some (Answer.mk (lastCorrect Sample.alice) (getTodayString Sample.july1)).
Proof.
  pose proof (history_kept Sample.questions UTCZone Sample.july2) as [_ [H2 [H3 _]]].
  pose proof (history_kept Sample.questions UTCZone Sample.july1) as [_ [_ [_ H4]]].
  split; [exact (H2 _ _ sample_historyOk)|].
  split; [exact (H3 _ _ sample_historyOk)|].
  exact (H4 (Body.mk (Some 42) None (Some 1)) Sample.aliceOnly Sample.alice
           (Some (Answer.mk true "2024-07-01")) sample_historyOk eq_refl).
Defined.

(** X5. No submission deletes a record or lowers what it has earned: every
    record stored before is stored after under the same key, with the same
    id, a longest streak and totals that are not smaller (the totals grow by
    at most one), and the history entries of all other days untouched; and
    unless the response is a score, the record is unchanged. *)
Theorem records_only_grow (questions : list Question.t) (zone : TimeZone)
    (now : Z) (body : Body.t) (d : Disk) (key : string) (u : UserData) :
  lookupUser d key = Some u ->
  let r := apiAnswer questions zone now body d in
  exists u',
    lookupUser (snd r) key = Some u'
    /\ fid u' = fid u
    /\ longestStreak u <= longestStreak u'
    /\ totalPlayed u <= totalPlayed u' <= totalPlayed u + 1
    /\ totalCorrect u <= totalCorrect u' <= totalCorrect u + 1
    /\ (forall day, day <> getTodayString now ->
                    objGet (answers u') day = objGet (answers u) day)
    /\ ((forall c i x f, fst r <> json (Scored c i x f) 200) -> u' = u).
Proof.
  intros Hu r. subst r.
  assert (Hsame : forall u0 : UserData,
            fid u0 = fid u0 /\ longestStreak u0 <= longestStreak u0
            /\ totalPlayed u0 <= totalPlayed u0 <= totalPlayed u0 + 1
            /\ totalCorrect u0 <= totalCorrect u0 <= totalCorrect u0 + 1
            /\ (forall day : string, day <> getTodayString now ->
                  objGet (answers u0) day = objGet (answers u0) day))
    by (intros u0; repeat split; lia).
  destruct (apiAnswer_cases questions zone now body d)
    as [Hmiss|[fid [ai [Hfid [Hnz Hai]]]]].
  { rewrite Hmiss. exists u. cbn [snd]. split; [exact Hu|].
    destruct (Hsame u) as [? [? [? [? ?]]]]. auto 10. }
  rewrite (apiAnswer_run questions zone now body fid ai d Hfid Hnz Hai).
  cbv zeta.
  assert (Hu1 : lookupUser (snd (getUser fid d)) key = Some u)
    by (now apply StoreExtra.getUser_keeps).
  pose proof (getUser_stored fid d) as Hst.
  destruct (getUser fid d) as [user d1]. cbn [fst snd] in *.
  destruct (strictEq (lastPlayed user) (getTodayString now)).
  { exists u. cbn [snd]. split; [exact Hu1|].
    destruct (Hsame u) as [? [? [? [? ?]]]]. auto 10. }
  destruct (getTodaysQuestion questions zone now) as [q|].
  2:{ exists u. cbn [snd]. split; [exact Hu1|].
      destruct (Hsame u) as [? [? [? [? ?]]]]. auto 10. }
  cbn [fst snd]. rewrite lookupUser_objSet.
  destruct (String.eqb_spec (String_ fid) key) as [<-|Hne].
  - eexists. split; [reflexivity|].
    rewrite Hst in Hu1. injection Hu1 as ->.
    cbn [scoredRecord Server.fid longestStreak totalPlayed totalCorrect answers].
    split; [reflexivity|]. split; [lia|]. split; [lia|].
    split; [destruct (ai =? Question.correct q); lia|]. split.
    + intros day Hday. apply objGet_objSet_other. congruence.
    + intros Hnot. exfalso. eapply Hnot. reflexivity.
  - exists u. split; [exact Hu1|].
    destruct (Hsame u) as [? [? [? [? ?]]]]. auto 10.
Qed.

Lemma records_only_grow_witness :
  let r := apiAnswer Sample.questions UTCZone Sample.july2
             (Body.mk (Some 42) None (Some 3)) Sample.aliceOnly in
  exists u',
    lookupUser (snd r) "42" = Some u'
    /\ fid u' = 42
    /\ 5 <= longestStreak u'
    /\ 9 <= totalPlayed u' <= 9 + 1
    /\ 7 <= totalCorrect u' <= 7 + 1
    /\ (forall day, day <> getTodayString Sample.july2 ->
                    objGet (answers u') day = objGet (answers Sample.alice) day)
    /\ ((forall c i x f, fst r <> json (Scored c i x f) 200) -> u' = Sample.alice).
Proof.
  exact (records_only_grow Sample.questions UTCZone Sample.july2
           (Body.mk (Some 42) None (Some 3)) Sample.aliceOnly "42" Sample.alice
           eq_refl).
Defined.

(** X6. One scored answer a day: after a submission has been scored, any
    further submission for the same user while the day key is the same,
    whatever it answers, is refused as already played, carries the record
    and the answer of the scored one, and changes nothing. *)
Theorem second_submission_refused (questions questions' : list Question.t)
    (zone zone' : TimeZone) (now now' : Z) (body body' : Body.t)
    (fid answerIndex answerIndex' : Z) (d : Disk)
    (isCorrect : bool) (correctAnswer : Z) (user : UserData) (funFact : string) :
  Body.fid body = Some fid -> fid <> 0 ->
  Body.answerIndex body = Some answerIndex ->
  Body.fid body' = Some fid ->
  Body.answerIndex body' = Some answerIndex' ->
  getTodayString now' = getTodayString now ->
  fst (apiAnswer questions zone now body d) =
    json (Scored isCorrect correctAnswer user funFact) 200 ->
  let d1 := snd (apiAnswer questions zone now body d) in
  apiAnswer questions' zone' now' body' d1 =
  (json (AlreadyPlayed user
           (Some (Answer.mk isCorrect (getTodayString now)))) 400, d1).
Proof.
  intros Hfid Hnz Hai Hfid' Hai' Hday Hresp d1. subst d1.
  rewrite (apiAnswer_run questions zone now body fid answerIndex d Hfid Hnz Hai)
    in Hresp |- *.
  cbv zeta in Hresp |- *.
  destruct (strictEq (lastPlayed (fst (getUser fid d))) (getTodayString now));
    [discriminate|].
  destruct (getTodaysQuestion questions zone now) as [q|]; [|discriminate].
  cbn [fst snd] in Hresp |- *. injection Hresp as <- <- <- <-.
  set (user := scoredRecord _ _ _ _ _).
  set (d1 := Some _).
  assert (Hst : lookupUser d1 (String_ fid) = Some user)
    by (unfold d1; rewrite lookupUser_objSet, String.eqb_refl; reflexivity).
  rewrite (apiAnswer_run questions' zone' now' body' fid answerIndex' d1
             Hfid' Hnz Hai').
  rewrite (getUser_existing _ _ _ Hst). cbn [fst snd]. rewrite Hday.
  assert (Hplayed : strictEq (lastPlayed user) (getTodayString now) = true)
    by (apply strictEq_true; reflexivity).
  rewrite Hplayed. unfold user at 2. cbn [scoredRecord answers].
  now rewrite objGet_objSet_same.
Qed.

Lemma second_submission_refused_witness :
  let d1 := snd (apiAnswer Sample.questions UTCZone Sample.july2
                   (Body.mk (Some 42) None (Some 3)) Sample.aliceOnly) in
  exists user,
    apiAnswer Sample.questions UTCZone Sample.july2
      (Body.mk (Some 42) (Some "al") (Some 0)) d1 =
    (json (AlreadyPlayed user (Some (Answer.mk true "2024-07-02"))) 400, d1).
Proof.
  eexists.
  exact (second_submission_refused Sample.questions Sample.questions
           UTCZone UTCZone Sample.july2 Sample.july2
           (Body.mk (Some 42) None (Some 3)) (Body.mk (Some 42) (Some "al") (Some 0))
           42 3 0 Sample.aliceOnly true 3 _ "F3"
           eq_refl ltac:(discriminate) eq_refl eq_refl eq_refl eq_refl eq_refl).
Defined.

(** X7. The first submission of an unknown user creates the record and
    scores it in one request: afterwards the record is stored under the
    user's key with one answer played, one history entry for today, and a
    streak, longest streak and correct total of 1 for a correct answer and
    0 for a wrong one; no other record changes. *)
Theorem first_submission (questions : list Question.t) (zone : TimeZone)
    (now : Z) (body : Body.t) (fid answerIndex : Z) (d : Disk) (q : Question.t) :
  Body.fid body = Some fid -> fid <> 0 ->
  Body.answerIndex body = Some answerIndex ->
  lookupUser d (String_ fid) = None ->
  getTodaysQuestion questions zone now = Some q ->
  let isCorrect := answerIndex =? Question.correct q in
  let score := if isCorrect then 1 else 0 in
  let today := getTodayString now in
  let u' :=
    {| Server.fid := fid;
       username := match Body.username body with
                   | Some (String c s) => Some (String c s)
                   | _ => None
                   end;
       currentStreak := score;
       longestStreak := score;
       lastPlayed := Some today;
       lastCorrect := isCorrect;
       totalPlayed := 1;
       totalCorrect := score;
       answers := [(today, Answer.mk isCorrect today)] |} in
  exists d',
    apiAnswer questions zone now body d =
    (json (Scored isCorrect (Question.correct q) u' (Question.funFact q)) 200, d')
    /\ lookupUser d' (String_ fid) = Some u'
    /\ forall key, key <> String_ fid -> lookupUser d' key = lookupUser d key.
Proof.
  intros Hfid Hnz Hai Hnone Hq isCorrect score today u'.
  assert (Hplayed : lastPlayed (fst (getUser fid d)) <> Some (getTodayString now))
    by (rewrite (getUser_fresh _ _ Hnone); discriminate).
  destruct (apiAnswer_scored questions zone now body fid answerIndex d q
              Hfid Hnz Hai Hplayed Hq) as [d' H].
  rewrite (getUser_fresh _ _ Hnone) in H. cbn [fst] in H.
  replace (scoredRecord _ _ _ _ _) with u' in H; [now exists d'|].
  unfold u', scoredRecord, score, isCorrect, today, objSet. cbn.
  destruct (answerIndex =? Question.correct q),
    (arrayIndex (getTodayString now)); reflexivity.
Qed.

Lemma first_submission_witness :
  exists u' d',
    apiAnswer Sample.questions UTCZone Sample.july2
      (Body.mk (Some 7) None (Some 3)) Sample.aliceOnly =
    (json (Scored true 3 u' "F3") 200, d')
    /\ lookupUser d' "7" = Some u'
    /\ totalPlayed u' = 1 /\ currentStreak u' = 1
    /\ lookupUser d' "42" = lookupUser Sample.aliceOnly "42".
Proof.
  destruct (first_submission Sample.questions UTCZone Sample.july2
              (Body.mk (Some 7) None (Some 3)) 7 3 Sample.aliceOnly
              (Question.mk 3 "Q3" ["a"; "b"; "c"; "d"] 3 "Protocols" "F3")
              eq_refl ltac:(discriminate) eq_refl eq_refl eq_refl)
    as [d' [Hrun [Hlook Hother]]].
  eexists; exists d'. split; [exact Hrun|]. split; [exact Hlook|].
  split; [reflexivity|]. split; [reflexivity|].
  apply Hother. discriminate.
Defined.


End AnswerExtra.

(* ================================================================= *)
(** ** More about day keys and the question number *)

Module DateExtra.
Import JS Server Props Derived JSFacts StoreFacts AnswerFacts DateFacts.

(** *** Strings *)

Lemma append_assoc (a b c : string) : (a ++ b) ++ c = a ++ (b ++ c).
Proof. induction a as [|x a IH]; cbn; [reflexivity | now rewrite IH]. Qed.

Lemma length_append (a b : string) :
  String.length (a ++ b) = (String.length a + String.length b)%nat.
Proof. induction a as [|x a IH]; cbn; [reflexivity | now rewrite IH]. Qed.

Lemma append_inj (a a' b b' : string) :
  String.length a = String.length a' -> a ++ b = a' ++ b' -> a = a' /\ b = b'.
Proof.
  revert a'. induction a as [|x a IH]; intros [|x' a']; cbn; try discriminate.
  - auto.
  - intros [= Hlen] [= -> Happ]. destruct (IH a' Hlen Happ) as [-> ->]. auto.
Qed.

(** [c] does not occur in [s] exactly when [splitHead c s] keeps all of
    [s]. *)
Lemma splitHead_append (c : ascii) (s1 s2 : string) :
  splitHead c s1 = s1 -> splitHead c s2 = s2 ->
  splitHead c (s1 ++ s2) = s1 ++ s2.
Proof.
  intros H1 H2. induction s1 as [|a s1 IH]; cbn in *; [exact H2|].
  destruct (Ascii.eqb a c); [discriminate|].
  injection H1 as H1. now rewrite (IH H1).
Qed.

Lemma splitHead_stop (c : ascii) (s1 s2 : string) :
  splitHead c s1 = s1 -> splitHead c (s1 ++ String c s2) = s1.
Proof.
  intros H1. induction s1 as [|a s1 IH]; cbn in *.
  - now rewrite Ascii.eqb_refl.
  - destruct (Ascii.eqb a c); [discriminate|].
    injection H1 as H1. now rewrite (IH H1).
Qed.

Lemma digit_cases (n : Z) :
  let d := n mod 10 in
  d = 0 \/ d = 1 \/ d = 2 \/ d = 3 \/ d = 4 \/ d = 5 \/ d = 6 \/ d = 7
  \/ d = 8 \/ d = 9.
Proof. cbv zeta. pose proof (Z.mod_pos_bound n 10). lia. Qed.

Lemma pad_no_T (w : nat) (n : Z) : splitHead "T" (pad w n) = pad w n.
Proof.
  revert n. induction w as [|w IH]; intros n; cbn [pad]; [reflexivity|].
  apply splitHead_append; [apply IH|].
  destruct (digit_cases n) as [H|[H|[H|[H|[H|[H|[H|[H|[H|H]]]]]]]]];
    rewrite H; reflexivity.
Qed.

Lemma length_pad (w : nat) (n : Z) : String.length (pad w n) = w.
Proof.
  revert n. induction w as [|w IH]; intros n; cbn [pad]; [reflexivity|].
  rewrite length_append, IH. cbn. lia.
Qed.

Lemma digit_inj (a b : Z) :
  0 <= a < 10 -> 0 <= b < 10 -> digit a = digit b -> a = b.
Proof.
  intros Ha Hb H. unfold digit in H.
  apply (f_equal nat_of_ascii) in H.
  rewrite !nat_ascii_embedding in H by lia. lia.
Qed.

(** Numbers below [10 ^ w] are told apart by their [w] digits. *)
Lemma pad_inj (w : nat) (n n' : Z) :
  0 <= n < 10 ^ Z.of_nat w -> 0 <= n' < 10 ^ Z.of_nat w ->
  pad w n = pad w n' -> n = n'.
Proof.
  revert n n'. induction w as [|w IH]; intros n n' Hn Hn' H.
  - cbn in Hn, Hn'. lia.
  - rewrite Nat2Z.inj_succ, Z.pow_succ_r in Hn, Hn' by lia.
    cbn [pad] in H.
    apply append_inj in H as [Hhi Hlo]; [|now rewrite !length_pad].
    injection Hlo as Hlo.
    apply digit_inj in Hlo; try (apply Z.mod_pos_bound; lia).
    apply IH in Hhi; [|split; Z.to_euclidean_division_equations; lia ..].
    Z.to_euclidean_division_equations; lia.
Qed.

(** *** Day keys *)

Lemma isoYear_no_T (y : Z) : splitHead "T" (isoYear y) = isoYear y.
Proof.
  unfold isoYear.
  destruct ((0 <=? y) && (y <=? 9999)); [apply pad_no_T|].
  destruct (y <? 0); apply (splitHead_append "T" (String _ EmptyString));
    try reflexivity; apply pad_no_T.
Qed.

Lemma toISOString_split (t : Z) :
  toISOString t =
  isoDate t ++
  String "T" (pad 2 (HourFromTime t) ++ ":" ++ pad 2 (MinFromTime t) ++ ":" ++
              pad 2 (SecFromTime t) ++ "." ++ pad 3 (msFromTime t) ++ "Z").
Proof.
  unfold toISOString, isoDate. rewrite !append_assoc. reflexivity.
Qed.

(** The day key is the date part of the ISO string. *)
Lemma getTodayString_isoDate (t : Z) : getTodayString t = isoDate t.
Proof.
  unfold getTodayString. rewrite toISOString_split.
  apply splitHead_stop. unfold isoDate.
  apply splitHead_append; [apply isoYear_no_T|].
  apply (splitHead_append "T" "-"); [reflexivity|].
  apply splitHead_append; [apply pad_no_T|].
  apply (splitHead_append "T" "-"); [reflexivity | apply pad_no_T].
Qed.

Lemma YearFromTime_Day (t1 t2 : Z) :
  Day t1 = Day t2 -> YearFromTime t1 = YearFromTime t2.
Proof. unfold YearFromTime. now intros ->. Qed.

Lemma fields_Day (t1 t2 : Z) :
  Day t1 = Day t2 ->
  YearFromTime t1 = YearFromTime t2 /\ MonthFromTime t1 = MonthFromTime t2
  /\ DateFromTime t1 = DateFromTime t2.
Proof.
  intros H. pose proof (YearFromTime_Day _ _ H) as Hy.
  unfold DateFromTime, MonthFromTime, InLeapYear, DayWithinYear.
  now rewrite H, Hy.
Qed.

Lemma Day_fields (t1 t2 : Z) :
  YearFromTime t1 = YearFromTime t2 -> MonthFromTime t1 = MonthFromTime t2 ->
  DateFromTime t1 = DateFromTime t2 -> Day t1 = Day t2.
Proof.
  intros Hy Hm Hd.
  pose proof (MakeDay_fields t1 (DateFromTime t1)) as H1.
  pose proof (MakeDay_fields t2 (DateFromTime t2)) as H2.
  rewrite Hy, Hm, Hd in H1. lia.
Qed.

Lemma isoDate_inj (t1 t2 : Z) :
  fourDigitYear t1 -> fourDigitYear t2 ->
  isoDate t1 = isoDate t2 -> Day t1 = Day t2.
Proof.
  unfold fourDigitYear, isoDate, isoYear. intros Hy1 Hy2 H.
  destruct (Z.leb_spec 0 (YearFromTime t1)), (Z.leb_spec (YearFromTime t1) 9999);
    try lia.
  destruct (Z.leb_spec 0 (YearFromTime t2)), (Z.leb_spec (YearFromTime t2) 9999);
    try lia.
  cbn [andb] in H.
  pose proof (MonthFromTime_range t1). pose proof (MonthFromTime_range t2).
  pose proof (DateFromTime_range t1). pose proof (DateFromTime_range t2).
  apply append_inj in H as [Hy H]; [|now rewrite !length_pad].
  apply (append_inj "-" "-") in H as [_ H]; [|reflexivity].
  apply append_inj in H as [Hm H]; [|now rewrite !length_pad].
  apply (append_inj "-" "-") in H as [_ Hd]; [|reflexivity].
  apply pad_inj in Hy; [|cbn; lia ..].
  apply pad_inj in Hm; [|cbn; lia ..].
  apply pad_inj in Hd; [|cbn; lia ..].
  apply Day_fields; lia.
Qed.

(** X8. The day key is the UTC day: two clock readings on the same UTC day
    have the same key, and, for years written with four digits, readings
    with the same key are on the same UTC day. *)
Theorem day_key_is_utc_day (t1 t2 : Z) :
  (Day t1 = Day t2 -> getTodayString t1 = getTodayString t2)
  /\ (fourDigitYear t1 -> fourDigitYear t2 ->
      getTodayString t1 = getTodayString t2 -> Day t1 = Day t2).
Proof.
  rewrite !getTodayString_isoDate. split.
  - intros H. destruct (fields_Day _ _ H) as [Hy [Hm Hd]].
    unfold isoDate. now rewrite Hy, Hm, Hd.
  - apply isoDate_inj.
Qed.

Lemma day_key_is_utc_day_witness :
  getTodayString Sample.july2 = getTodayString (Sample.july2 + 1000)
  /\ Day Sample.july2 = Day (Sample.july2 + 1000).
Proof.
  split.
  - exact (proj1 (day_key_is_utc_day Sample.july2 (Sample.july2 + 1000)) eq_refl).
  - exact (proj2 (day_key_is_utc_day Sample.july2 (Sample.july2 + 1000))
             ltac:(vm_compute; split; discriminate)
             ltac:(vm_compute; split; discriminate) eq_refl).
Defined.


Lemma Day_minus_day (t : Z) : Day (t - msPerDay) = Day t - 1.
Proof. unfold Day, msPerDay. Z.to_euclidean_division_equations; lia. Qed.

(** X9. On a host whose zone has one fixed offset, yesterday's key is the
    key of the clock reading 24 hours earlier, which lies on the previous
    UTC day; for years written with four digits it differs from today's
    key. *)
Theorem yesterday_key_fixed_offset (off now : Z) :
  getYesterdayString (fixedZone off) now = getTodayString (now - msPerDay)
  /\ Day (now - msPerDay) = Day now - 1
  /\ (fourDigitYear now -> fourDigitYear (now - msPerDay) ->
      getYesterdayString (fixedZone off) now <> getTodayString now).
Proof.
  split; [apply getYesterdayString_fixedZone|].
  split; [apply Day_minus_day|].
  intros Hy Hy' H. rewrite getYesterdayString_fixedZone in H.
  rewrite !getTodayString_isoDate in H.
  apply isoDate_inj in H; try assumption.
  rewrite Day_minus_day in H. lia.
Qed.

Lemma yesterday_key_fixed_offset_witness :
  getYesterdayString (fixedZone (-18000000)) Sample.july2 <>
  getTodayString Sample.july2.
Proof.
  exact (proj2 (proj2 (yesterday_key_fixed_offset (-18000000) Sample.july2))
           ltac:(vm_compute; split; discriminate)
           ltac:(vm_compute; split; discriminate)).
Defined.

(** X10. On a host whose zone has one fixed offset, from the year 100 on,
    the question number is the day of the year: the days before the local
    month plus the day of the month, between 1 and the length of the year,
    and larger on a later day of the same year. *)
Theorem question_number_fixed_offset (off now : Z) :
  99 < getFullYear (fixedZone off) now ->
  let zone := fixedZone off in
  getQuestionNumber zone now =
    DaysBeforeMonth (isLeapYear (getFullYear zone now)) (getMonth zone now)
    + getDate zone now
  /\ 1 <= getQuestionNumber zone now <= DaysInYear (getFullYear zone now)
  /\ (forall now',
        getFullYear zone now' = getFullYear zone now ->
        Day (LocalTime zone now) < Day (LocalTime zone now') ->
        getQuestionNumber zone now < getQuestionNumber zone now').
Proof.
  intros Hy zone. subst zone.
  rewrite (getQuestionNumber_fixedZone off now Hy).
  pose proof (DayWithinYear_range (LocalTime (fixedZone off) now)) as Hr.
  unfold dayOfYear, getDate, getMonth, getFullYear, DateFromTime, InLeapYear in *.
  split; [lia|]. split; [lia|].
  intros now' Hsame Hlt.
  rewrite (getQuestionNumber_fixedZone off now')
    by (unfold getFullYear; lia).
  unfold dayOfYear, DayWithinYear. rewrite Hsame. lia.
Qed.

Lemma question_number_fixed_offset_witness :
  getQuestionNumber UTCZone Sample.july1 = 182 + 1
  /\ 1 <= getQuestionNumber UTCZone Sample.july1 <= 366
  /\ getQuestionNumber UTCZone Sample.july1 < getQuestionNumber UTCZone Sample.july2.
Proof.
  destruct (question_number_fixed_offset 0 Sample.july1
              ltac:(vm_compute; reflexivity)) as [H1 [H2 H3]].
  split; [exact H1|]. split; [exact H2|].
  apply H3; vm_compute; reflexivity.
Defined.

End DateExtra.

(* ================================================================= *)
(** ** More about the question of the day *)

Module QuestionExtra.
Import JS Server Props Derived JSFacts StoreFacts AnswerFacts DateFacts.

(** With a catalog that is not empty, from the year 0 on, the question is
    the catalog entry at [catalogIndex]. *)
Lemma getTodaysQuestion_index (questions : list Question.t) (zone : TimeZone)
    (now : Z) :
  questions <> [] -> 0 <= getFullYear zone now ->
  0 <= catalogIndex questions zone now < Z.of_nat (List.length questions)
  /\ getTodaysQuestion questions zone now =
     nth_error questions (Z.to_nat (catalogIndex questions zone now)).
Proof.
  intros Hne Hy. pose proof (seed_nonneg zone now Hy) as Hseed.
  assert (Hlen : 0 < Z.of_nat (List.length questions))
    by (destruct questions; [contradiction | cbn; lia]).
  assert (Hidx : 0 <= catalogIndex questions zone now
                 < Z.of_nat (List.length questions))
    by (apply Z.mod_pos_bound; lia).
  split; [exact Hidx|].
  unfold getTodaysQuestion, rem.
  destruct (Z.eqb_spec (Z.of_nat (List.length questions)) 0); [lia|].
  rewrite Z.rem_mod_nonneg by lia. fold (catalogIndex questions zone now).
  unfold arrayGet. destruct (Z.ltb_spec (catalogIndex questions zone now) 0);
    [lia | reflexivity].
Qed.

(** X12. The seed tells the date: two clock readings with the same seed
    have the same local year, month and day. *)
Theorem seed_tells_the_date (zone zone' : TimeZone) (now now' : Z) :
  seed zone now = seed zone' now' ->
  getFullYear zone now = getFullYear zone' now'
  /\ getMonth zone now = getMonth zone' now'
  /\ getDate zone now = getDate zone' now'.
Proof.
  unfold seed, getMonth, getDate, getFullYear.
  pose proof (MonthFromTime_range (LocalTime zone now)).
  pose proof (DateFromTime_range (LocalTime zone now)).
  pose proof (MonthFromTime_range (LocalTime zone' now')).
  pose proof (DateFromTime_range (LocalTime zone' now')).
  lia.
Qed.

Lemma seed_tells_the_date_witness :
  getFullYear UTCZone Sample.july1 = getFullYear Sample.newYork2024 Sample.july1
  /\ getMonth UTCZone Sample.july1 = getMonth Sample.newYork2024 Sample.july1
  /\ getDate UTCZone Sample.july1 = getDate Sample.newYork2024 Sample.july1.
Proof.
  exact (seed_tells_the_date UTCZone Sample.newYork2024 Sample.july1 Sample.july1
           ltac:(vm_compute; reflexivity)).
Defined.

(** X13. The catalog is walked in order inside a month: on the next day of
    the same month (from the year 0 on, catalog not empty) the question is
    the entry one position further, wrapping around at the end. *)
Theorem next_day_next_question (questions : list Question.t)
    (zone zone' : TimeZone) (now now' : Z) :
  questions <> [] ->
  0 <= getFullYear zone now ->
  getFullYear zone' now' = getFullYear zone now ->
  getMonth zone' now' = getMonth zone now ->
  getDate zone' now' = getDate zone now + 1 ->
  let len := Z.of_nat (List.length questions) in
  catalogIndex questions zone' now' = (catalogIndex questions zone now + 1) mod len
  /\ getTodaysQuestion questions zone' now' =
     nth_error questions
       (Z.to_nat ((catalogIndex questions zone now + 1) mod len)).
Proof.
  intros Hne Hy Hy' Hm' Hd' len.
  destruct (getTodaysQuestion_index questions zone' now' Hne ltac:(lia))
    as [_ Hq].
  assert (Hidx : catalogIndex questions zone' now' =
                 (catalogIndex questions zone now + 1) mod len).
  { unfold catalogIndex, seed. rewrite Hy', Hm', Hd'. fold len.
    rewrite Z.add_assoc. fold (seed zone now).
    now rewrite Z.add_mod_idemp_l
      by (subst len; destruct questions; [contradiction | cbn; lia]). }
  split; [exact Hidx|]. now rewrite Hq, Hidx.
Qed.

Lemma next_day_next_question_witness :
  catalogIndex Sample.questions UTCZone Sample.july2 =
  (catalogIndex Sample.questions UTCZone Sample.july1 + 1) mod 3
  /\ getTodaysQuestion Sample.questions UTCZone Sample.july2 =
     nth_error Sample.questions
       (Z.to_nat ((catalogIndex Sample.questions UTCZone Sample.july1 + 1) mod 3)).
Proof.
  exact (next_day_next_question Sample.questions UTCZone UTCZone
           Sample.july1 Sample.july2
           ltac:(discriminate) ltac:(vm_compute; discriminate)
           ltac:(vm_compute; reflexivity) ltac:(vm_compute; reflexivity)
           ltac:(vm_compute; reflexivity)).
Defined.

(** X14. With a catalog of at least 31 different questions no question
    comes twice in a month: two different days of the same month and year
    (from the year 0 on) get different questions. *)
Theorem no_repeat_within_month (questions : list Question.t)
    (zone zone' : TimeZone) (now now' : Z) :
  NoDup questions ->
  31 <= Z.of_nat (List.length questions) ->
  0 <= getFullYear zone now ->
  getFullYear zone' now' = getFullYear zone now ->
  getMonth zone' now' = getMonth zone now ->
  getDate zone' now' <> getDate zone now ->
  getTodaysQuestion questions zone' now' <> getTodaysQuestion questions zone now.
Proof.
  intros Hnd Hlen Hy Hy' Hm' Hd'.
  assert (Hne : questions <> []) by (destruct questions; [cbn in Hlen; lia | discriminate]).
  destruct (getTodaysQuestion_index questions zone now Hne Hy) as [Hi Hq].
  destruct (getTodaysQuestion_index questions zone' now' Hne ltac:(lia))
    as [Hi' Hq'].
  rewrite Hq, Hq'. intros Heq.
  apply (proj1 (NoDup_nth_error questions) Hnd) in Heq; [|lia].
  assert (Hidx : catalogIndex questions zone' now' = catalogIndex questions zone now)
    by lia.
  pose proof (DateFromTime_range (LocalTime zone now)).
  pose proof (DateFromTime_range (LocalTime zone' now')).
  unfold catalogIndex, seed in Hidx. rewrite Hy', Hm' in Hidx.
  unfold getDate in *.
  set (len := Z.of_nat (List.length questions)) in *.
  set (D := DateFromTime (LocalTime zone now)) in *.
  set (D' := DateFromTime (LocalTime zone' now')) in *.
  revert Hidx.
  generalize (getFullYear zone now * 10000 + (getMonth zone now + 1) * 100).
  intros base Hidx.
  assert (Hdiv : (D' - D) mod len = 0).
  { replace (D' - D) with ((base + D') - (base + D)) by lia.
    rewrite Zminus_mod, Hidx, Z.sub_diag. apply Z.mod_0_l. lia. }
  apply Z.mod_divide in Hdiv; [|lia].
  destruct Hdiv as [k Hk].
  assert (k = 0) by nia. lia.
Qed.

Lemma no_repeat_within_month_witness :
  let catalog :=
    map (fun i => Question.mk (Z.of_nat i) "Q" ["a"; "b"; "c"; "d"] 0 "C" "F")
      (seq 0 31) in
  getTodaysQuestion catalog UTCZone Sample.july2 <>
  getTodaysQuestion catalog UTCZone Sample.july1.
Proof.
  intros catalog.
  assert (Hnd : NoDup catalog).
  { apply Finite.Injective_map_NoDup; [|apply seq_NoDup].
    intros i j [= H]. lia. }
  exact (no_repeat_within_month catalog UTCZone UTCZone Sample.july1 Sample.july2
           Hnd ltac:(vm_compute; discriminate) ltac:(vm_compute; discriminate)
           ltac:(vm_compute; reflexivity) ltac:(vm_compute; reflexivity)
           ltac:(vm_compute; discriminate)).
Defined.

End QuestionExtra.

(* ================================================================= *)
(** ** More about the endpoints *)

Module EndpointExtra.
Import JS Server Props Derived JSFacts StoreFacts AnswerFacts DateFacts.

(** *** [parseInt] reads back what [String] writes *)

Ltac digit_step :=
  cbn [NilEmpty.string_of_uint readDigits];
  match goal with
  | |- context [digitValue ?c] =>
      let v := eval vm_compute in (digitValue c) in
      change (digitValue c) with v
  end;
  cbv iota beta;
  match goal with
  | |- context [?k <? 10] => change (k <? 10) with true
  end;
  cbv iota.

Lemma readDigits_acc (u : Decimal.uint) (acc : positive) :
  readDigits 10 (Some (Zpos acc)) (NilEmpty.string_of_uint u) =
  Some (Zpos (Pos.of_uint_acc u acc)).
Proof.
  revert acc. induction u; intros acc; [reflexivity | ..];
    digit_step; cbn [Pos.of_uint_acc];
    match goal with
    | |- readDigits 10 (Some ?z) _ = Some (Z.pos (Pos.of_uint_acc _ ?p)) =>
        replace z with (Z.pos p) by lia
    end; apply IHu.
Qed.

Lemma readDigits_zero (u : Decimal.uint) :
  readDigits 10 (Some 0) (NilEmpty.string_of_uint u) =
  Some (Z.of_N (Pos.of_uint u)).
Proof.
  induction u; [reflexivity | ..]; digit_step; cbn [Pos.of_uint Z.of_N];
    [exact IHu | ..]; apply readDigits_acc.
Qed.

Lemma readDigits_start (u : Decimal.uint) :
  u <> Decimal.Nil ->
  readDigits 10 None (NilEmpty.string_of_uint u) =
  Some (Z.of_N (Pos.of_uint u)).
Proof.
  intros Hnil. rewrite <- readDigits_zero.
  destruct u; [contradiction | ..]; digit_step; reflexivity.
Qed.

(** A string of decimal digits is read in base 10, with or without a minus
    sign in front. *)
Lemma parseInt_uint (u : Decimal.uint) :
  u <> Decimal.Nil ->
  parseInt (NilEmpty.string_of_uint u) = Some (Z.of_N (Pos.of_uint u))
  /\ parseInt (String "-" (NilEmpty.string_of_uint u)) =
     Some (- Z.of_N (Pos.of_uint u)).
Proof.
  intros Hnil. pose proof (readDigits_start u Hnil) as Hread.
  assert (Hshape :
    parseInt (NilEmpty.string_of_uint u) =
      match readDigits 10 None (NilEmpty.string_of_uint u) with
      | Some n => Some (1 * n) | None => None end
    /\ parseInt (String "-" (NilEmpty.string_of_uint u)) =
      match readDigits 10 None (NilEmpty.string_of_uint u) with
      | Some n => Some (-1 * n) | None => None end).
  { destruct u as [|u|u|u|u|u|u|u|u|u|u]; [contradiction | ..].
    2-10: split; reflexivity.
    destruct u as [|u|u|u|u|u|u|u|u|u|u]; split; reflexivity. }
  destruct Hshape as [H1 H2]. rewrite H1, H2, Hread.
  split; f_equal; lia.
Qed.

Lemma parseInt_String (n : Z) : parseInt (String_ n) = Some n.
Proof.
  destruct n as [|p|p]; [reflexivity | |];
    unfold String_; cbn [Z.to_int NilZero.string_of_int];
    pose proof (DecimalPos.Unsigned.to_uint_nonnil p) as Hnil;
    pose proof (DecimalPos.Unsigned.of_to p) as Hof;
    unfold NilZero.string_of_uint;
    destruct (Pos.to_uint p) eqn:E; try contradiction;
    rewrite <- E in *.
  all: first [ rewrite (proj1 (parseInt_uint _ Hnil)), Hof; reflexivity
             | change (append "-" ?s) with (String "-" s) ].
  all: try (rewrite (proj2 (parseInt_uint _ Hnil)), Hof; reflexivity).
Qed.

(** X15. The address the client builds from a user id, [/api/user/<id>],
    reaches the record of that id, for every id that is a safe integer:
    [parseInt] reads back the number that [String] wrote, so the lookup
    answers with the record that [getUser] returns for the id (the one a
    submission for that id uses), tells whether it was last played today,
    and writes what [getUser] writes. *)
Theorem user_route_reaches_record (questions : list Question.t)
    (zone : TimeZone) (now fid : Z) (d : Disk) :
  safeInteger fid ->
  parseInt (String_ fid) = Some fid
  /\ let user := fst (getUser fid d) in
     let today := getTodayString now in
     apiUser questions zone now (String_ fid) d =
     (json (UserInfo user (strictEq (lastPlayed user) today)
              (if strictEq (lastPlayed user) today
               then objGet (answers user) today else None)
              (getTodaysQuestion questions zone now)
              (getQuestionNumber zone now)) 200,
      snd (getUser fid d)).
Proof.
  intros _. split; [apply parseInt_String|].
  unfold apiUser. rewrite parseInt_String. unfold bind.
  destruct (getUser fid d) as [user d1]. reflexivity.
Qed.

Lemma user_route_reaches_record_witness :
  parseInt (String_ 42) = Some 42
  /\ apiUser Sample.questions UTCZone Sample.july1 (String_ 42) Sample.aliceOnly =
     (json (UserInfo Sample.alice true (Some (Answer.mk true "2024-07-01"))
              (getTodaysQuestion Sample.questions UTCZone Sample.july1)
              (getQuestionNumber UTCZone Sample.july1)) 200,
      Sample.aliceOnly).
Proof.
  exact (user_route_reaches_record Sample.questions UTCZone Sample.july1 42
           Sample.aliceOnly ltac:(unfold safeInteger; lia)).
Defined.

(** X16. With an empty catalog there is no question on any day; the
    question endpoint fails with status 500, and so does a submission by a
    user who has not played today, after the user's record was looked up:
    nothing is scored, but an unknown user is left with a new, zeroed
    record. *)
Theorem empty_catalog (zone : TimeZone) (now : Z) :
  getTodaysQuestion [] zone now = None
  /\ (forall d, apiQuestion [] zone now d = (throwTypeError, d))
  /\ (forall body fid answerIndex d,
        Body.fid body = Some fid -> fid <> 0 ->
        Body.answerIndex body = Some answerIndex ->
        lastPlayed (fst (getUser fid d)) <> Some (getTodayString now) ->
        apiAnswer [] zone now body d = (throwTypeError, snd (getUser fid d))
        /\ (lookupUser d (String_ fid) = None ->
            lookupUser (snd (apiAnswer [] zone now body d)) (String_ fid) =
            Some (newUser fid))).
Proof.
  split; [reflexivity|]. split; [reflexivity|].
  intros body fid answerIndex d Hfid Hnz Hai Hplayed.
  rewrite (apiAnswer_run [] zone now body fid answerIndex d Hfid Hnz Hai).
  cbv zeta. apply strictEq_false in Hplayed. rewrite Hplayed.
  change (getTodaysQuestion [] zone now) with (@None Question.t). cbv iota.
  split; [reflexivity|].
  intros Hnone. cbn [snd]. rewrite getUser_stored.
  now rewrite (getUser_fresh _ _ Hnone).
Qed.

Lemma empty_catalog_witness :
  apiAnswer [] UTCZone Sample.july2 (Body.mk (Some 7) None (Some 0))
    Sample.aliceOnly =
  (throwTypeError, snd (getUser 7 Sample.aliceOnly))
  /\ lookupUser
       (snd (apiAnswer [] UTCZone Sample.july2 (Body.mk (Some 7) None (Some 0))
               Sample.aliceOnly)) "7" = Some (newUser 7).
Proof.
  destruct (proj2 (proj2 (empty_catalog UTCZone Sample.july2))
              (Body.mk (Some 7) None (Some 0)) 7 0 Sample.aliceOnly
              eq_refl ltac:(discriminate) eq_refl ltac:(discriminate))
    as [H1 H2].
  split; [exact H1 | exact (H2 eq_refl)].
Defined.

(** X17. No read endpoint changes or removes a stored record: the question
    and leaderboard endpoints leave the users file as it is, and so does
    the user lookup when the id does not parse or the user is known; for an
    unknown user the lookup adds that user's record and touches no
    other. *)
Theorem reads_keep_records (questions : list Question.t) (zone : TimeZone)
    (now : Z) (d : Disk) :
  snd (apiQuestion questions zone now d) = d
  /\ snd (apiLeaderboard d) = d
  /\ (forall param,
        (parseInt param = None
         \/ exists fid u, parseInt param = Some fid
                          /\ lookupUser d (String_ fid) = Some u) ->
        snd (apiUser questions zone now param d) = d)
  /\ (forall param key u,
        lookupUser d key = Some u ->
        lookupUser (snd (apiUser questions zone now param d)) key = Some u).
Proof.
  split; [|split; [|split]].
  - unfold apiQuestion. now destruct (getTodaysQuestion questions zone now).
  - unfold apiLeaderboard, bind. rewrite LeaderboardFacts.getLeaderboard_run.
    reflexivity.
  - intros param [Hnan|[fid [u [Hparse Hu]]]]; unfold apiUser.
    + now rewrite Hnan.
    + rewrite Hparse. unfold bind. now rewrite (getUser_existing _ _ _ Hu).
  - intros param key u Hu. unfold apiUser.
    destruct (parseInt param) as [fid|]; [|exact Hu].
    unfold bind. pose proof (StoreExtra.getUser_keeps fid d key u Hu) as Hk.
    destruct (getUser fid d) as [user d1]. exact Hk.
Qed.

Lemma reads_keep_records_witness :
  snd (apiUser Sample.questions UTCZone Sample.july2 "42" Sample.aliceOnly) =
  Sample.aliceOnly
  /\ snd (apiUser Sample.questions UTCZone Sample.july2 "abc" Sample.aliceOnly) =
     Sample.aliceOnly
  /\ lookupUser
       (snd (apiUser Sample.questions UTCZone Sample.july2 "7" Sample.aliceOnly))
       "42" = Some Sample.alice.
Proof.
  pose proof (reads_keep_records Sample.questions UTCZone Sample.july2
                Sample.aliceOnly) as [_ [_ [H3 H4]]].
  split; [|split].
  - apply H3. right. exists 42, Sample.alice. split; reflexivity.
  - apply H3. left. reflexivity.
  - apply H4. reflexivity.
Defined.

(** X23. The user lookup tells what a submission will meet, for every id
    that is a safe integer: when the lookup at [/api/user/<id>]
    reports [hasPlayedToday], a submission for that id with the
    same clock reading is refused as already played, with the record and
    the answer the lookup showed; when it does not, the submission is not
    refused as already played. *)
Theorem played_flag_predicts (questions : list Question.t) (zone : TimeZone)
    (now : Z) (body : Body.t) (fid answerIndex : Z) (d : Disk) :
  safeInteger fid ->
  Body.fid body = Some fid -> fid <> 0 ->
  Body.answerIndex body = Some answerIndex ->
  let r := apiUser questions zone now (String_ fid) d in
  exists user played answer question number,
    fst r = json (UserInfo user played answer question number) 200
    /\ (played = true ->
        apiAnswer questions zone now body (snd r) =
        (json (AlreadyPlayed user answer) 400, snd r))
    /\ (played = false ->
        forall u a,
          fst (apiAnswer questions zone now body (snd r)) <>
          json (AlreadyPlayed u a) 400).
Proof.
  intros _ Hfid Hnz Hai r. subst r.
  unfold apiUser. rewrite parseInt_String. unfold bind.
  pose proof (getUser_stored fid d) as Hst.
  destruct (getUser fid d) as [user d1]. cbn [fst snd ret json] in *.
  do 5 eexists. split; [reflexivity|].
  rewrite (apiAnswer_run questions zone now body fid answerIndex d1 Hfid Hnz Hai).
  rewrite (getUser_existing _ _ _ Hst). cbn [fst snd].
  split; intros Hplayed; rewrite Hplayed.
  - reflexivity.
  - intros u a. destruct (getTodaysQuestion questions zone now); discriminate.
Qed.

Lemma played_flag_predicts_witness :
  exists user played answer question number,
    fst (apiUser Sample.questions UTCZone Sample.july1 "42" Sample.aliceOnly) =
    json (UserInfo user played answer question number) 200
    /\ (played = true ->
        apiAnswer Sample.questions UTCZone Sample.july1
          (Body.mk (Some 42) None (Some 1))
          (snd (apiUser Sample.questions UTCZone Sample.july1 "42"
                  Sample.aliceOnly)) =
        (json (AlreadyPlayed user answer) 400,
         snd (apiUser Sample.questions UTCZone Sample.july1 "42"
                Sample.aliceOnly)))
    /\ (played = false ->
        forall u a,
          fst (apiAnswer Sample.questions UTCZone Sample.july1
                 (Body.mk (Some 42) None (Some 1))
                 (snd (apiUser Sample.questions UTCZone Sample.july1 "42"
                         Sample.aliceOnly))) <>
          json (AlreadyPlayed u a) 400).
Proof.
  exact (played_flag_predicts Sample.questions UTCZone Sample.july1
           (Body.mk (Some 42) None (Some 1)) 42 1 Sample.aliceOnly
           ltac:(unfold safeInteger; lia) eq_refl ltac:(discriminate) eq_refl).
Defined.

(** X24. On a host whose zone has one fixed offset the question and its
    number belong to the local day: two clock readings on the same local
    day get the same question and the same question number; on a UTC host
    they also get the same day key. *)
Theorem same_local_day_same_question (questions : list Question.t)
    (off t1 t2 : Z) :
  let zone := fixedZone off in
  Day (LocalTime zone t1) = Day (LocalTime zone t2) ->
  getTodaysQuestion questions zone t1 = getTodaysQuestion questions zone t2
  /\ getQuestionNumber zone t1 = getQuestionNumber zone t2
  /\ (off = 0 -> getTodayString t1 = getTodayString t2).
Proof.
  intros zone Hday. subst zone.
  destruct (DateExtra.fields_Day _ _ Hday) as [Hy [Hm Hd]].
  split; [|split].
  - unfold getTodaysQuestion, seed, getFullYear, getMonth, getDate.
    now rewrite Hy, Hm, Hd.
  - unfold getQuestionNumber, getFullYear, getTime, newDate3. rewrite Hy.
    unfold UTC, MakeDate, MakeTime. cbn [offsetAtLocal fixedZone].
    match goal with
    | |- context [MakeDay ?y 0 0] => generalize (MakeDay y 0 0)
    end.
    intros start. revert Hday. unfold LocalTime, Day, msPerDay.
    cbn [offsetAtUTC fixedZone]. intros Hday.
    Z.to_euclidean_division_equations; lia.
  - intros ->. unfold LocalTime in Hday. cbn in Hday.
    rewrite !Z.add_0_r in Hday.
    rewrite !DateExtra.getTodayString_isoDate.
    destruct (DateExtra.fields_Day _ _ Hday) as [Ey [Em Ed]].
    unfold isoDate. now rewrite Ey, Em, Ed.
Qed.

Lemma same_local_day_same_question_witness :
  getTodaysQuestion Sample.questions UTCZone Sample.july2 =
  getTodaysQuestion Sample.questions UTCZone (Sample.july2 + 1000)
  /\ getQuestionNumber UTCZone Sample.july2 =
     getQuestionNumber UTCZone (Sample.july2 + 1000)
  /\ getTodayString Sample.july2 = getTodayString (Sample.july2 + 1000).
Proof.
  destruct (same_local_day_same_question Sample.questions 0 Sample.july2
              (Sample.july2 + 1000) ltac:(vm_compute; reflexivity))
    as [H1 [H2 H3]].
  split; [exact H1|]. split; [exact H2 | exact (H3 eq_refl)].
Defined.


End EndpointExtra.

(* ================================================================= *)
(** ** More about the leaderboard *)

Module LeaderboardExtra.
Import JS Server Props Derived JSFacts StoreFacts AnswerFacts LeaderboardFacts.

(** *** The sort is stable *)

Section Stable.
Context {A : Type} (cmp : A -> A -> Z) (p : A -> bool).
Hypothesis tied : forall x y, p x = true -> p y = true -> cmp x y <= 0.

Lemma filter_sortInsert (x : A) (l : list A) :
  filter p (sortInsert cmp x l) = filter p (x :: l).
Proof.
  induction l as [|y l IH]; [reflexivity|].
  cbn [sortInsert]. destruct (Z.leb_spec (cmp x y) 0) as [Hle|Hgt];
    [reflexivity|].
  cbn [filter] in *. rewrite IH.
  destruct (p x) eqn:Hx, (p y) eqn:Hy; try reflexivity.
  specialize (tied x y Hx Hy). lia.
Qed.

Lemma filter_sort (l : list A) : filter p (sort cmp l) = filter p l.
Proof.
  induction l as [|x l IH]; [reflexivity|].
  cbn [sort fold_right]. fold (sort cmp l).
  rewrite filter_sortInsert. cbn [filter]. now rewrite IH.
Qed.
End Stable.

Lemma firstn_prefix {A : Type} (n m : nat) (l : list A) :
  (n <= m)%nat -> isPrefix (firstn n l) (firstn m l).
Proof.
  revert m l. induction n as [|n IH]; intros m l Hle.
  - now exists (firstn m l).
  - destruct m as [|m]; [lia|]. destruct l as [|x l]; [now exists []|].
    destruct (IH m l ltac:(lia)) as [rest Hrest].
    exists rest. cbn. now rewrite Hrest.
Qed.


(** X18. Ties keep the order of the users file: when the limit does not cut
    the list, the users with one and the same longest streak and total
    appear on the leaderboard in the order in which the file lists them. *)
Theorem ties_keep_store_order (d : Disk) (limit streak0 total0 : Z) :
  Z.of_nat (List.length (objValues (stored d))) <= limit ->
  filter (fun e => (streak e =? streak0) && (total e =? total0))
    (fst (getLeaderboard (Some limit) d)) =
  map toEntry
    (filter (fun u => (longestStreak u =? streak0) && (totalCorrect u =? total0))
       (objValues (stored d))).
Proof.
  intros Hlimit. rewrite getLeaderboard_run. cbn [fst].
  rewrite slice_from_0 by lia.
  rewrite firstn_all2
    by (rewrite (Permutation_length (sort_perm compareUsers _)); lia).
  rewrite filter_map_swap. f_equal. cbn [toEntry streak total].
  apply filter_sort.
  intros x y Hx Hy.
  apply andb_true_iff in Hx as [Hx1 Hx2]. apply andb_true_iff in Hy as [Hy1 Hy2].
  apply Z.eqb_eq in Hx1, Hx2, Hy1, Hy2.
  unfold compareUsers, orElse. rewrite Hx1, Hx2, Hy1, Hy2, !Z.sub_diag.
  reflexivity.
Qed.

Lemma ties_keep_store_order_witness :
  filter (fun e => (streak e =? 0) && (total e =? 0))
    (fst (getLeaderboard (Some 20)
            (snd (getUser 3 Sample.bobOnly)))) =
  map toEntry
    (filter (fun u => (longestStreak u =? 0) && (totalCorrect u =? 0))
       (objValues (stored (snd (getUser 3 Sample.bobOnly))))).
Proof.
  exact (ties_keep_store_order (snd (getUser 3 Sample.bobOnly)) 20 0 0
           ltac:(vm_compute; discriminate)).
Defined.

(** X19. A larger limit only adds to the end: for limits 0 <= l <= l' the
    leaderboard of l is the start of the leaderboard of l', and a limit
    that reaches the number of users lists every user once. *)
Theorem leaderboard_grows_with_limit (d : Disk) (l l' : Z) :
  0 <= l <= l' ->
  isPrefix (fst (getLeaderboard (Some l) d)) (fst (getLeaderboard (Some l') d))
  /\ (Z.of_nat (List.length (objValues (stored d))) <= l ->
      Permutation (fst (getLeaderboard (Some l) d))
        (map toEntry (objValues (stored d)))).
Proof.
  intros Hl. rewrite !getLeaderboard_run. cbn [fst].
  rewrite !slice_from_0 by lia. split.
  - destruct (firstn_prefix (Z.to_nat l) (Z.to_nat l')
                (sort compareUsers (objValues (stored d))) ltac:(lia))
      as [rest Hrest].
    exists (map toEntry rest). now rewrite Hrest, map_app.
  - intros Hcount. apply Permutation_map.
    rewrite firstn_all2
      by (rewrite (Permutation_length (sort_perm compareUsers _)); lia).
    apply sort_perm.
Qed.

Lemma leaderboard_grows_with_limit_witness :
  isPrefix (fst (getLeaderboard (Some 1) Sample.threeUsers))
    (fst (getLeaderboard (Some 3) Sample.threeUsers))
  /\ Permutation (fst (getLeaderboard (Some 3) Sample.threeUsers))
       (map toEntry (objValues (stored Sample.threeUsers))).
Proof.
  split.
  - exact (proj1 (leaderboard_grows_with_limit Sample.threeUsers 1 3
                    ltac:(lia))).
  - exact (proj2 (leaderboard_grows_with_limit Sample.threeUsers 3 3
                    ltac:(lia)) ltac:(vm_compute; discriminate)).
Defined.

(** X20. The leaderboard endpoint answers with status 200 and at most 20
    entries in ranking order, which start with the board of the default
    limit 10, and it leaves the users file as it is. *)
Theorem api_leaderboard (d : Disk) :
  exists board,
    apiLeaderboard d = (json (Leaderboard board) 200, d)
    /\ (List.length board <= 20)%nat
    /\ StronglySorted rankedBefore board
    /\ isPrefix (fst (getLeaderboard None d)) board.
Proof.
  exists (fst (getLeaderboard (Some 20) d)).
  unfold apiLeaderboard, bind.
  assert (Hdef : getLeaderboard None d = getLeaderboard (Some 10) d)
    by reflexivity.
  rewrite Hdef, !getLeaderboard_run. cbn [fst].
  rewrite !slice_from_0 by lia.
  split; [reflexivity|]. split; [|split].
  - rewrite length_map, length_firstn. lia.
  - apply StronglySorted_map, StronglySorted_firstn, ranking_sorted.
  - destruct (firstn_prefix (Z.to_nat 10) (Z.to_nat 20)
                (sort compareUsers (objValues (stored d))) ltac:(lia))
      as [rest Hrest].
    exists (map toEntry rest). now rewrite Hrest, map_app.
Qed.

(** *** Keys of the users file *)

Section KeyFacts.
Context {V : Type}.
Implicit Types (o : Obj V) (k : string) (v : V).








End KeyFacts.









End LeaderboardExtra.

(* ================================================================= *)
(** ** The answer endpoint with its three clock readings *)

Module WireFacts.
Import JS Server Props Derived Wire JSFacts StoreFacts AnswerFacts DateFacts.

(** With a body of the declared types and the three readings equal,
    [apiAnswerAt] is [apiAnswer]. *)
Lemma apiAnswer_apiAnswerAt (questions : list Question.t) (zone : TimeZone)
    (now : Z) (body : Body.t) (d : Disk) :
  apiAnswer questions zone now body d =
  apiAnswerAt questions zone now now now (toRaw body) d.
Proof.
  destruct body as [[fid|] [[|c s]|] [answerIndex|]]; reflexivity.
Qed.

(** The ways a request that names a user and an answer ends. *)
Lemma apiAnswerAt_run (questions : list Question.t) (zone : TimeZone)
    (nowToday nowYesterday nowQuestion : Z) (body : RawBody)
    (fid : Z) (answerIndex : Json) (d : Disk) :
  Wire.fid body = Value fid -> fid <> 0 ->
  Wire.answerIndex body = Some answerIndex ->
  let user := fst (getUser fid d) in
  let d1 := snd (getUser fid d) in
  let today := getTodayString nowToday in
  apiAnswerAt questions zone nowToday nowYesterday nowQuestion body d =
  if strictEq (lastPlayed user) today
  then (json (AlreadyPlayed user (objGet (answers user) today)) 400, d1)
  else
    match getTodaysQuestion questions zone nowQuestion with
    | None => (throwTypeError, d1)
    | Some q =>
        let isCorrect := strictEqNum answerIndex (Question.correct q) in
        let user' :=
          scoredRecord user (nameOf (Wire.username body)) today
            (getYesterdayString zone nowYesterday) isCorrect in
        (json (Scored isCorrect (Question.correct q) user' (Question.funFact q)) 200,
         Some (mkUsersDB (objSet (stored d1) (String_ fid) user')))
    end.
Proof.
  intros Hfid Hnz Hai user d1 today. unfold apiAnswerAt. rewrite Hfid, Hai.
  destruct (Z.eqb_spec fid 0) as [|_]; [contradiction|].
  unfold bind at 1.
  pose proof (getUser_stored fid d) as Hst. fold user d1 in Hst.
  destruct (getUser fid d) as [u dd] eqn:Hget. cbn in user, d1, Hst.
  subst user d1 today.
  destruct (strictEq (lastPlayed u) (getTodayString nowToday)); [reflexivity|].
  destruct (getTodaysQuestion questions zone nowQuestion) as [q|]; [|reflexivity].
  unfold bind. rewrite (updateUser_run _ _ _ _ Hst).
  destruct (Wire.username body) as [| |[|c s]]; reflexivity.
Qed.

(** What a [Scored] response tells about the record it carries. *)
Lemma apiAnswerAt_scored_inv (questions : list Question.t) (zone : TimeZone)
    (nowToday nowYesterday nowQuestion : Z) (body : RawBody)
    (fid : Z) (answerIndex : Json) (d : Disk)
    (c : bool) (i : Z) (user : UserData) (f : string) :
  Wire.fid body = Value fid -> fid <> 0 ->
  Wire.answerIndex body = Some answerIndex ->
  fst (apiAnswerAt questions zone nowToday nowYesterday nowQuestion body d) =
    json (Scored c i user f) 200 ->
  lookupUser
    (snd (apiAnswerAt questions zone nowToday nowYesterday nowQuestion body d))
    (String_ fid) = Some user
  /\ lastPlayed user = Some (getTodayString nowToday)
  /\ lastCorrect user = c.
Proof.
  intros Hfid Hnz Hai Hresp.
  rewrite (apiAnswerAt_run questions zone nowToday nowYesterday nowQuestion
             body fid answerIndex d Hfid Hnz Hai) in Hresp |- *.
  cbv zeta in Hresp |- *.
  destruct (strictEq (lastPlayed (fst (getUser fid d))) (getTodayString nowToday));
    [discriminate|].
  destruct (getTodaysQuestion questions zone nowQuestion) as [q|]; [|discriminate].
  cbn [fst snd] in Hresp |- *. injection Hresp as <- <- <- <-.
  rewrite AnswerExtra.lookupUser_objSet, String.eqb_refl.
  cbn [scoredRecord lastPlayed lastCorrect]. repeat split.
Qed.

(** X11. The streak from one answer to the next, with the handler's three
    clock readings apart, on a host whose zone has one fixed offset (years
    written with four digits).  When a user's answer has been scored under
    the day key of the reading [t1] and the user's next submission, with
    its first reading [t2] on a later UTC day, is correct, the streak
    becomes the streak of the scored answer plus one if that answer was
    correct and the reading [t2y], from which the handler takes
    yesterday's key, lies on the UTC day after [t1]; otherwise it
    becomes 1.  For a request whose readings lie on one UTC day that is:
    plus one on the very next day, 1 after a wrong answer or a missed
    day. *)
Theorem streak_on_later_day (questions1 questions2 : list Question.t)
    (zone1 : TimeZone) (off : Z) (t1 t1y t1q t2 t2y t2q : Z)
    (body1 body2 : RawBody) (fid : Z) (a1 a2 : Json) (d : Disk)
    (c1 : bool) (i1 : Z) (user1 : UserData) (f1 : string) (q2 : Question.t) :
  Wire.fid body1 = Value fid -> fid <> 0 ->
  Wire.answerIndex body1 = Some a1 ->
  fst (apiAnswerAt questions1 zone1 t1 t1y t1q body1 d) =
    json (Scored c1 i1 user1 f1) 200 ->
  Wire.fid body2 = Value fid ->
  Wire.answerIndex body2 = Some a2 ->
  getTodaysQuestion questions2 (fixedZone off) t2q = Some q2 ->
  a2 = JNum (Question.correct q2) ->
  fourDigitYear t1 -> fourDigitYear t2 -> fourDigitYear (t2y - msPerDay) ->
  Day t1 < Day t2 ->
  exists user2 d2,
    apiAnswerAt questions2 (fixedZone off) t2 t2y t2q body2
      (snd (apiAnswerAt questions1 zone1 t1 t1y t1q body1 d)) =
    (json (Scored true (Question.correct q2) user2 (Question.funFact q2)) 200, d2)
    /\ lookupUser d2 (String_ fid) = Some user2
    /\ currentStreak user2 =
       (if (Day t2y =? Day t1 + 1) && c1 then currentStreak user1 + 1 else 1)
    /\ (Day t2y = Day t2 ->
        currentStreak user2 =
        if (Day t2 =? Day t1 + 1) && c1 then currentStreak user1 + 1 else 1).
Proof.
  intros Hfid Hnz Ha1 Hresp Hfid2 Ha2 Hq2 Hc2 Hy1 Hy2 Hy2' Hlt.
  destruct (apiAnswerAt_scored_inv _ _ _ _ _ _ _ _ _ _ _ _ _ Hfid Hnz Ha1 Hresp)
    as [Hst [Hlast Hcorr]].
  set (d1 := snd (apiAnswerAt questions1 zone1 t1 t1y t1q body1 d)) in *.
  rewrite (apiAnswerAt_run questions2 (fixedZone off) t2 t2y t2q body2 fid a2 d1
             Hfid2 Hnz Ha2).
  rewrite (getUser_existing _ _ _ Hst). cbn [fst snd]. rewrite Hlast, Hq2.
  assert (Hplayed : strictEq (Some (getTodayString t1)) (getTodayString t2) = false).
  { apply strictEq_false. intros [= H].
    rewrite !DateExtra.getTodayString_isoDate in H.
    apply DateExtra.isoDate_inj in H; try assumption. lia. }
  rewrite Hplayed.
  assert (Hc : strictEqNum a2 (Question.correct q2) = true)
    by (rewrite Hc2; cbn; apply Z.eqb_refl).
  rewrite Hc.
  eexists; eexists. split; [reflexivity|]. split.
  { rewrite AnswerExtra.lookupUser_objSet, String.eqb_refl. reflexivity. }
  assert (Hstreak :
    currentStreak (scoredRecord user1 (nameOf (Wire.username body2))
                     (getTodayString t2) (getYesterdayString (fixedZone off) t2y)
                     true) =
    if (Day t2y =? Day t1 + 1) && c1 then currentStreak user1 + 1 else 1).
  { cbn [scoredRecord currentStreak]. rewrite Hlast, Hcorr.
    rewrite getYesterdayString_fixedZone.
    destruct (Z.eqb_spec (Day t2y) (Day t1 + 1)) as [Hnext|Hgap].
    - assert (Hkey : strictEq (Some (getTodayString t1))
                       (getTodayString (t2y - msPerDay)) = true).
      { apply strictEq_true. f_equal.
        rewrite !DateExtra.getTodayString_isoDate.
        assert (HD : Day t1 = Day (t2y - msPerDay))
          by (rewrite DateExtra.Day_minus_day; lia).
        destruct (DateExtra.fields_Day _ _ HD) as [Ey [Em Ed]].
        unfold isoDate. now rewrite Ey, Em, Ed. }
      now rewrite Hkey.
    - assert (Hkey : strictEq (Some (getTodayString t1))
                       (getTodayString (t2y - msPerDay)) = false).
      { apply strictEq_false. intros [= H].
        rewrite !DateExtra.getTodayString_isoDate in H.
        apply DateExtra.isoDate_inj in H; try assumption.
        rewrite DateExtra.Day_minus_day in H. lia. }
      now rewrite Hkey. }
  split; [exact Hstreak|].
  intros Hsame. rewrite Hstreak, Hsame. reflexivity.
Qed.

Lemma streak_on_later_day_witness :
  exists user2 d2,
    apiAnswerAt Sample.questions UTCZone Sample.july3 Sample.july3 Sample.july3
      (mkRawBody (Value 42) Null (Some (JNum 2)))
      (snd (apiAnswerAt Sample.questions UTCZone
              Sample.july2 Sample.july2 Sample.july2
              (mkRawBody (Value 42) Absent (Some (JNum 3))) Sample.aliceOnly)) =
    (json (Scored true 2 user2 "F1") 200, d2)
    /\ lookupUser d2 "42" = Some user2
    /\ currentStreak user2 = 4 + 1
    /\ (Day Sample.july3 = Day Sample.july3 -> currentStreak user2 = 4 + 1).
Proof.
  exact (streak_on_later_day Sample.questions Sample.questions UTCZone 0
           Sample.july2 Sample.july2 Sample.july2
           Sample.july3 Sample.july3 Sample.july3
           (mkRawBody (Value 42) Absent (Some (JNum 3)))
           (mkRawBody (Value 42) Null (Some (JNum 2)))
           42 (JNum 3) (JNum 2) Sample.aliceOnly true 3
           (scoredRecord Sample.alice None "2024-07-02" "2024-07-01" true) "F3"
           (Question.mk 1 "Q1" ["a"; "b"; "c"; "d"] 2 "History" "F1")
           eq_refl ltac:(discriminate) eq_refl eq_refl eq_refl eq_refl eq_refl
           eq_refl
           ltac:(vm_compute; split; discriminate)
           ltac:(vm_compute; split; discriminate)
           ltac:(vm_compute; split; discriminate)
           ltac:(vm_compute; reflexivity)).
Defined.



End WireFacts.
